(** * Push-up dashboard (app.py): the grid loader, the series reshaper and
      the goal-crossing computation, embedded and verified.

    The program is a pandas script.  A [DataFrame] is modelled row-major
    (index labels, column labels, one list of cells per row), a [Series] as
    the list of its (label, value) entries in positional order.  A cell is
    [option Z]: the counts of the spreadsheet are integers, and [None] is the
    missing value (NaN).  A Python exception is the [Raise] outcome of
    [result]. *)

From stdpp Require Import gmap strings list sorting pretty.
From Stdlib Require Import ZArith Lia Ascii.

Local Open Scope Z_scope.

(** ** Outcomes: a value or a raised exception *)

Inductive exn := ValueError | AttributeError.

Inductive result (A : Type) :=
  | Ok (a : A)
  | Raise (e : exn).
Arguments Ok {A} a.
Arguments Raise {A} e.

#[global] Instance exn_eq_dec : EqDecision exn.
Proof. solve_decision. Defined.

#[global] Instance result_ret : MRet result := λ A a, Ok a.
#[global] Instance result_bind : MBind result := λ A B f r,
  match r with Ok a => f a | Raise e => Raise e end.
#[global] Instance result_fmap : FMap result := λ A B f r,
  match r with Ok a => Ok (f a) | Raise e => Raise e end.

#[global] Instance result_eq_dec `{EqDecision A} : EqDecision (result A).
Proof. solve_decision. Defined.

(** An absent parse result becomes the exception [e]. *)
Definition or_raise {A} (e : exn) (o : option A) : result A :=
  match o with Some a => Ok a | None => Raise e end.

(** ** Module-level constants of app.py *)

Definition MONTHS : list string :=
  ["January"; "February"; "March"; "April"; "May"; "June"; "July";
   "August"; "September"; "October"; "November"; "December"]%string.

(** ** Calendar dates *)

Record Timestamp := mkTimestamp { ts_year : Z; ts_month : Z; ts_day : Z }.

#[global] Instance Timestamp_eq_dec : EqDecision Timestamp.
Proof. solve_decision. Defined.

(** Chronological order. *)
Definition Timestamp_lt (a b : Timestamp) : Prop :=
  ts_year a < ts_year b ∨
  (ts_year a = ts_year b ∧
   (ts_month a < ts_month b ∨ (ts_month a = ts_month b ∧ ts_day a < ts_day b))).

Definition Timestamp_le (a b : Timestamp) : Prop := Timestamp_lt a b ∨ a = b.

#[global] Instance Timestamp_lt_dec a b : Decision (Timestamp_lt a b).
Proof. unfold Timestamp_lt. apply _. Defined.
#[global] Instance Timestamp_le_dec a b : Decision (Timestamp_le a b).
Proof. unfold Timestamp_le. apply _. Defined.

Definition is_leap_year (y : Z) : bool :=
  (y mod 4 =? 0) && (negb (y mod 100 =? 0) || (y mod 400 =? 0)).

Definition days_in_month (y m : Z) : Z :=
  match m with
  | 2 => if is_leap_year y then 29 else 28
  | 4 | 6 | 9 | 11 => 30
  | _ => 31
  end.

(** A (day, month) combination that exists in the calendar of year [y]. *)
Definition valid_date (y m d : Z) : Prop :=
  1 ≤ m ≤ 12 ∧ 1 ≤ d ≤ days_in_month y m.

(** ** Parsing with the format "%d/%B/%Y"

    [pd.to_datetime(s, format="%d/%B/%Y")] matches the whole of [s] against
    the regular expression of the format, case-insensitively:
    the day field [3[0-1]|[1-2]\d|0[1-9]|[1-9]| [1-9]], a slash, a full month
    name, a slash, four digits.  No field can contain a slash, so each of the
    first two fields ends at the next slash. *)

Definition ascii_code (c : ascii) : Z := Z.of_N (N_of_ascii c).

Definition in_range (lo hi c : ascii) : bool :=
  (ascii_code lo <=? ascii_code c) && (ascii_code c <=? ascii_code hi).

Definition digit_value (c : ascii) : Z := ascii_code c - 48.

Definition ascii_lower (c : ascii) : ascii :=
  if in_range "A"%char "Z"%char c then ascii_of_N (N_of_ascii c + 32) else c.

Fixpoint lower (s : string) : string :=
  match s with
  | EmptyString => EmptyString
  | String c r => String (ascii_lower c) (lower r)
  end.

(** The text before the first slash and the text after it. *)
Fixpoint split_slash (s : string) : option (string * string) :=
  match s with
  | EmptyString => None
  | String c r =>
      if Ascii.eqb c "/"%char then Some (EmptyString, r)
      else match split_slash r with
           | Some (a, b) => Some (String c a, b)
           | None => None
           end
  end.

(** The directive %d. *)
Definition match_d (s : string) : option Z :=
  match s with
  | String a EmptyString =>
      if in_range "1"%char "9"%char a then Some (digit_value a) else None
  | String a (String b EmptyString) =>
      if Ascii.eqb a "3"%char && in_range "0"%char "1"%char b then Some (30 + digit_value b)
      else if in_range "1"%char "2"%char a && in_range "0"%char "9"%char b
           then Some (10 * digit_value a + digit_value b)
      else if Ascii.eqb a "0"%char && in_range "1"%char "9"%char b then Some (digit_value b)
      else if Ascii.eqb a " "%char && in_range "1"%char "9"%char b then Some (digit_value b)
      else None
  | _ => None
  end.

(** Position (from 1) of the first name of [names] equal to [s]. *)
Fixpoint index_from (n : Z) (s : string) (names : list string) : option Z :=
  match names with
  | [] => None
  | x :: r => if String.eqb s x then Some n else index_from (n + 1) s r
  end.

(** The directive %B: a full month name in any letter case. *)
Definition match_B (s : string) : option Z :=
  index_from 1 (lower s) (lower <$> MONTHS).

(** The directive %Y: exactly four digits. *)
Definition match_Y (s : string) : option Z :=
  match s with
  | String a (String b (String c (String d EmptyString))) =>
      if in_range "0"%char "9"%char a && in_range "0"%char "9"%char b
         && in_range "0"%char "9"%char c && in_range "0"%char "9"%char d
      then Some (1000 * digit_value a + 100 * digit_value b
                 + 10 * digit_value c + digit_value d)
      else None
  | _ => None
  end.

Definition strptime_dBY (s : string) : result Timestamp :=
  '(d_s, rest) ← or_raise ValueError (split_slash s);
  '(m_s, y_s) ← or_raise ValueError (split_slash rest);
  d ← or_raise ValueError (match_d d_s);
  m ← or_raise ValueError (match_B m_s);
  y ← or_raise ValueError (match_Y y_s);
  (* "day is out of range for month" *)
  if d <=? days_in_month y m then Ok (mkTimestamp y m d) else Raise ValueError.

(** ** as_time_series.to_datetime

    [pd.to_datetime(f"{day}/{month}/{year}", format="%d/%B/%Y")]; [day] is
    an integer row label, [month] a column label. *)
Definition to_datetime (day_month : Z * string) (year : Z) : result Timestamp :=
  let '(day, month) := day_month in
  strptime_dBY (pretty day +:+ "/" +:+ month +:+ "/" +:+ pretty year).

(** ** Tables and series *)

(** A pandas DataFrame, row-major: [df_data] has one list of cells per row
    label, each with one cell per column label. *)
Record DataFrame := mkDataFrame {
  df_index : list Z;
  df_columns : list string;
  df_data : list (list (option Z))
}.

Definition wf_DataFrame (df : DataFrame) : Prop :=
  length (df_data df) = length (df_index df) ∧
  Forall (λ row, length row = length (df_columns df)) (df_data df).

(** A pandas Series: its (label, value) entries in positional order. *)
Abbreviation Series I := (list (I * option Z)).

(** The elements of [l] at the positions where [mask] holds. *)
Fixpoint select {A} (mask : list bool) (l : list A) : list A :=
  match mask, l with
  | b :: m, x :: r => if b then x :: select m r else select m r
  | _, _ => []
  end.

(** ** load_data *)

(** [df.drop(columns=labels)] *)
Definition drop_columns (labels : list string) (df : DataFrame) : DataFrame :=
  let keep := (λ c, bool_decide (c ∉ labels)) <$> df_columns df in
  {| df_index := df_index df;
     df_columns := select keep (df_columns df);
     df_data := select keep <$> df_data df |}.

(** [df.iloc[:n]] *)
Definition iloc_to (n : nat) (df : DataFrame) : DataFrame :=
  {| df_index := take n (df_index df);
     df_columns := df_columns df;
     df_data := take n (df_data df) |}.

(** [df.index = labels]: pandas raises ValueError ("Length mismatch") unless
    there are as many labels as rows. *)
Definition set_index (labels : list Z) (df : DataFrame) : result DataFrame :=
  if decide (length labels = length (df_index df))
  then Ok {| df_index := labels;
             df_columns := df_columns df;
             df_data := df_data df |}
  else Raise ValueError.

(** [dict(pairs)]: a later pair overrides an earlier one with the same key. *)
Definition dict (pairs : list (string * string)) : gmap string string :=
  foldl (λ m kv, <[kv.1 := kv.2]> m) ∅ pairs.

(** [df.rename(columns=mapping)]: a label that is no key is kept. *)
Definition rename (mapping : gmap string string) (df : DataFrame) : DataFrame :=
  {| df_index := df_index df;
     df_columns := (λ c, default c (mapping !! c)) <$> df_columns df;
     df_data := df_data df |}.

(** [load_data], from the table [raw] that [pd.read_csv(path)] returns. *)
Definition load_data (raw : DataFrame) : result DataFrame :=
  let drop_cols := filter (λ c, String.prefix "Unnamed:" c = true) (df_columns raw) in
  let df := drop_columns drop_cols raw in
  (* filter rows for just days of the month *)
  let df := iloc_to 31 df in
  df ← set_index (seqZ 1 31) df;
  Ok (rename (dict (zip (df_columns df) MONTHS)) df).

(** ** as_time_series *)

Definition row_entries (cols : list string) (i : Z) (row : list (option Z))
  : Series (Z * string) :=
  zip_with (λ c v, ((i, c), v)) cols row.

(** All cells in row-major order, labelled (row label, column label). *)
Definition cells (df : DataFrame) : Series (Z * string) :=
  concat (zip_with (row_entries (df_columns df)) (df_index df) (df_data df)).

(** [df.stack()]: the cells in row-major order, the missing ones dropped. *)
Definition stack (df : DataFrame) : Series (Z * string) :=
  filter (λ e, is_Some e.2) (cells df).

(** Order of two entries of a date-indexed series by their labels. *)
Definition index_le (a b : Timestamp * option Z) : Prop := Timestamp_le a.1 b.1.

#[global] Instance index_le_dec a b : Decision (index_le a b).
Proof. unfold index_le. apply _. Defined.

(** [s.sort_index()]: the entries in ascending label order.  Entries with
    equal labels keep their order here; pandas leaves their order to the
    sorting algorithm, and [sort_index_unique] below shows that with
    distinct labels every sorting algorithm gives this result. *)
Definition sort_index (s : Series Timestamp) : Series Timestamp :=
  merge_sort index_le s.

Definition as_time_series (df : DataFrame) : result (Series Timestamp) :=
  let stacked := stack df in
  index ← mapM (λ day_month, to_datetime day_month 2021) (stacked.*1);
  let stacked := zip index (stacked.*2) in
  Ok (sort_index stacked).

(** ** Aggregates used by main *)

(** Sum of the present values: missing values are skipped. *)
Definition sum_present (l : list (option Z)) : Z :=
  foldr (λ o acc, default 0 o + acc) 0 l.

(** [s.sum()] *)
Definition series_sum {I} (s : Series I) : Z := sum_present (s.*2).

(** The cells of the column at position [j], one per row. *)
Definition column_cells (j : nat) (df : DataFrame) : list (option Z) :=
  (λ row, mjoin (row !! j)) <$> df_data df.

(** [df.sum()]: one sum per column. *)
Definition df_sum (df : DataFrame) : Series string :=
  imap (λ j c, (c, Some (sum_present (column_cells j df)))) (df_columns df).

(** [df.sum().sum()], the total of line 74. *)
Definition df_sum_sum (df : DataFrame) : Z := series_sum (df_sum df).

(** [s.cumsum()]: the running total skips a missing value and leaves it
    missing. *)
Fixpoint cumsum_from {I} (acc : Z) (s : Series I) : Series I :=
  match s with
  | [] => []
  | (i, Some v) :: r => (i, Some (acc + v)) :: cumsum_from (acc + v) r
  | (i, None) :: r => (i, None) :: cumsum_from acc r
  end.

Definition cumsum {I} (s : Series I) : Series I := cumsum_from 0 s.

(** [s[s > bound]] *)
Definition gt_bound (bound : Z) (v : option Z) : Prop :=
  match v with Some x => bound < x | None => False end.

#[global] Instance gt_bound_dec bound v : Decision (gt_bound bound v).
Proof. destruct v; simpl; apply _. Defined.

Definition where_gt {I} (bound : Z) (s : Series I) : Series I :=
  filter (λ e, gt_bound bound e.2) s.

(** The entry of the smallest present value at or after [best], the first
    one among equals. *)
Fixpoint argmin_from {I} (best : option (I * Z)) (s : Series I) : option (I * Z) :=
  match s with
  | [] => best
  | (i, Some v) :: r =>
      match best with
      | Some (_, b) => if v <? b then argmin_from (Some (i, v)) r
                       else argmin_from best r
      | None => argmin_from (Some (i, v)) r
      end
  | (_, None) :: r => argmin_from best r
  end.

(** [s.idxmin()]: ValueError on an empty series, the missing label (here
    [None]) when no value is present. *)
Definition idxmin {I} (s : Series I) : result (option I) :=
  match s with
  | [] => Raise ValueError
  | _ => Ok (fst <$> argmin_from None s)
  end.

(** Position (from 1) to month name. *)
Definition month_name (m : Z) : string :=
  default "" (MONTHS !! Z.to_nat (m - 1)).

(** [t.strftime('%B %-dth')] *)
Definition strftime_B_dth (t : Timestamp) : string :=
  month_name (ts_month t) +:+ " " +:+ pretty (ts_day t) +:+ "th".

(** Lines 133-134: [csum[csum > 10000].idxmin()], the date of [goal_date]. *)
Definition goal_timestamp (ts : Series Timestamp) : result (option Timestamp) :=
  let csum := cumsum ts in
  idxmin (where_gt 10000 csum).

(** [goal_date]; the missing label has no [strftime]. *)
Definition goal_date (ts : Series Timestamp) : result string :=
  t ← goal_timestamp ts;
  match t with
  | Some t => Ok (strftime_B_dth t)
  | None => Raise AttributeError
  end.

(** ** as_time_series on the object store

    The same function, step by step on a store of pandas objects: [df] is a
    reference to a DataFrame that the caller keeps (main passes the same
    [df] at lines 63 and 148), [df.stack()] and [sort_index()] allocate new
    objects, and [stacked.index = ...] assigns in place. *)
Module Store.

Definition loc := positive.

Inductive object :=
  | DataFrameObj (df : DataFrame)
  | StackedObj (s : Series (Z * string))
  | SeriesObj (s : Series Timestamp).

Abbreviation heap := (gmap loc object).

Definition M (A : Type) : Type := heap → result (A * heap).

Definition ret {A} (a : A) : M A := λ h, Ok (a, h).

Definition bind {A B} (m : M A) (f : A → M B) : M B := λ h,
  match m h with
  | Ok (a, h') => f a h'
  | Raise e => Raise e
  end.

Definition lift {A} (r : result A) : M A := λ h,
  match r with
  | Ok a => Ok (a, h)
  | Raise e => Raise e
  end.

Definition alloc (o : object) : M loc := λ h,
  let l := fresh (dom h) in Ok (l, <[l := o]> h).

Definition read (l : loc) : M object := λ h,
  match h !! l with
  | Some o => Ok (o, h)
  | None => Raise AttributeError
  end.

Definition write (l : loc) (o : object) : M unit := λ h,
  Ok (tt, <[l := o]> h).

Definition read_DataFrame (l : loc) : M DataFrame :=
  bind (read l) (λ o,
    match o with
    | DataFrameObj df => ret df
    | _ => lift (Raise AttributeError)
    end).

Definition read_Stacked (l : loc) : M (Series (Z * string)) :=
  bind (read l) (λ o,
    match o with
    | StackedObj s => ret s
    | _ => lift (Raise AttributeError)
    end).

Definition read_Series (l : loc) : M (Series Timestamp) :=
  bind (read l) (λ o,
    match o with
    | SeriesObj s => ret s
    | _ => lift (Raise AttributeError)
    end).

Definition as_time_series (df : loc) : M loc :=
  bind (read_DataFrame df) (λ g,
  bind (alloc (StackedObj (stack g))) (λ stacked,
  bind (read_Stacked stacked) (λ s,
  bind (lift (mapM (λ day_month, to_datetime day_month 2021) (s.*1))) (λ index,
  bind (write stacked (SeriesObj (zip index (s.*2)))) (λ _,
  bind (read_Series stacked) (λ s',
  alloc (SeriesObj (sort_index s')))))))).

End Store.

(** ** The other computations of main *)

(** [df.dropna(how="all", axis=1)] (line 62): the columns that have a present
    cell. *)
Definition dropna_all_columns (df : DataFrame) : DataFrame :=
  let keep := imap (λ j _, bool_decide (Exists is_Some (column_cells j df)))
                (df_columns df) in
  {| df_index := df_index df;
     df_columns := select keep (df_columns df);
     df_data := select keep <$> df_data df |}.

(** [df.sum(axis=1)] (line 98): one sum per row. *)
Definition df_sum_axis1 (df : DataFrame) : Series Z :=
  zip_with (λ i row, (i, Some (sum_present row))) (df_index df) (df_data df).

(** The entry of the largest present value at or after [best], the first one
    among equals. *)
Fixpoint argmax_from {I} (best : option (I * Z)) (s : Series I) : option (I * Z) :=
  match s with
  | [] => best
  | (i, Some v) :: r =>
      match best with
      | Some (_, b) => if b <? v then argmax_from (Some (i, v)) r
                       else argmax_from best r
      | None => argmax_from (Some (i, v)) r
      end
  | (_, None) :: r => argmax_from best r
  end.

(** [s.idxmax()] (lines 93, 114, 118) *)
Definition idxmax {I} (s : Series I) : result (option I) :=
  match s with
  | [] => Raise ValueError
  | _ => Ok (fst <$> argmax_from None s)
  end.

(** [s.max()] and [s.min()] (lines 93-95, 114): missing values are skipped,
    the result is missing when no value is present. *)
Definition series_max {I} (s : Series I) : option Z :=
  foldr (λ e acc, match e.2, acc with
                  | Some v, Some a => Some (Z.max v a)
                  | Some v, None => Some v
                  | None, _ => acc
                  end) None s.

Definition series_min {I} (s : Series I) : option Z :=
  foldr (λ e acc, match e.2, acc with
                  | Some v, Some a => Some (Z.min v a)
                  | Some v, None => Some v
                  | None, _ => acc
                  end) None s.

(** Lines 122-124: the column "Expected" holds 30 in every row, and
    [progress.cumsum()] accumulates it. *)
Definition expected_series (ts : Series Timestamp) : Series Timestamp :=
  (λ e, (e.1, Some 30)) <$> ts.

Definition progress_expected (ts : Series Timestamp) : Series Timestamp :=
  cumsum (expected_series ts).

(** Lines 150-152: [ts.index > "2021-08-06"], the column "after_goal". *)
Definition after_goal (ts : Series Timestamp) : list bool :=
  (λ e, bool_decide (Timestamp_lt (mkTimestamp 2021 8 6) e.1)) <$> ts.

(** Lines 62-63, 74 and 133-134 of main, from the table read from the file. *)
Definition main_df (raw : DataFrame) : result DataFrame :=
  dropna_all_columns <$> load_data raw.

Definition main_ts (raw : DataFrame) : result (Series Timestamp) :=
  df ← main_df raw; as_time_series df.

Definition main_total (raw : DataFrame) : result Z :=
  df_sum_sum <$> main_df raw.

Definition main_goal_date (raw : DataFrame) : result string :=
  ts ← main_ts raw; goal_date ts.

(** ** Notions used in the statements *)

(** The column labels that [load_data] drops, and those it keeps. *)
Definition unnamed_columns (df : DataFrame) : list string :=
  filter (λ c, String.prefix "Unnamed:" c = true) (df_columns df).

Definition named_columns (df : DataFrame) : list string :=
  filter (λ c, String.prefix "Unnamed:" c ≠ true) (df_columns df).

(** The labels of a full grid: every row label with every column label,
    row by row. *)
Definition grid_labels (df : DataFrame) : list (Z * string) :=
  d ← df_index df; (λ m, (d, m)) <$> df_columns df.

(** The (day, month name) pairs that are dates of the calendar of [year]. *)
Definition calendar_date (year : Z) (day_month : Z * string) : bool :=
  match index_from 1 day_month.2 MONTHS with
  | Some m => (1 <=? day_month.1) && (day_month.1 <=? days_in_month year m)
  | None => false
  end.

(** The date of a (day, month name) pair of the calendar. *)
Definition date_of (year : Z) (day_month : Z * string) : result Timestamp :=
  match index_from 1 day_month.2 MONTHS with
  | Some m => if calendar_date year day_month
              then Ok (mkTimestamp year m day_month.1)
              else Raise ValueError
  | None => Raise ValueError
  end.

(** The label pairs that [to_datetime] turns into a date of [year]: a month
    name in any letter case and a day of that month. *)
Definition date_label (year : Z) (day_month : Z * string) : bool :=
  match match_B day_month.2 with
  | Some k => bool_decide (1 ≤ day_month.1 ≤ days_in_month year k)
  | None => false
  end.

(** ** Test data *)

(** A 31 x 12 grid with every cell missing. *)
Definition empty_grid : DataFrame :=
  {| df_index := seqZ 1 31;
     df_columns := MONTHS;
     df_data := replicate 31 (replicate 12 None) |}.

(** Three days of January. *)
Definition january_series : Series Timestamp :=
  [(mkTimestamp 2021 1 1, Some 30); (mkTimestamp 2021 1 2, Some 0);
   (mkTimestamp 2021 1 3, Some 60)].

(** Four days of August: the running total reaches exactly 10000 on the
    6th, stays there on the 7th and passes it on the 8th. *)
Definition august_series : Series Timestamp :=
  [(mkTimestamp 2021 8 5, Some 9970); (mkTimestamp 2021 8 6, Some 30);
   (mkTimestamp 2021 8 7, Some 0); (mkTimestamp 2021 8 8, Some 30)].

(** A table as read from a file of [rows] lines, with a placeholder column. *)
Definition csv_table (rows : nat) : DataFrame :=
  {| df_index := seqZ 0 (Z.of_nat rows);
     df_columns := ["Jan"; "Feb"; "Unnamed: 2"; "Mar"]%string;
     df_data := replicate rows [Some 30; None; None; Some 60] |}.

(** The grid [df] with [v] in row [day] (from 1) under month [m] (from 1). *)
Definition with_cell (day m : nat) (v : Z) (df : DataFrame) : DataFrame :=
  {| df_index := df_index df;
     df_columns := df_columns df;
     df_data := alter (λ row, <[pred m := Some v]> row) (pred day) (df_data df) |}.

(** A grid with three counts: 4 on 1 March, 7 on 2 February and 5 on
    28 February. *)
Definition march_grid : DataFrame :=
  with_cell 2 2 7 (with_cell 1 3 4 (with_cell 28 2 5 empty_grid)).

Definition march_series : Series Timestamp :=
  [(mkTimestamp 2021 2 2, Some 7); (mkTimestamp 2021 2 28, Some 5);
   (mkTimestamp 2021 3 1, Some 4)].

(** A store that holds [march_grid] and nothing else. *)
Definition march_store : gmap Store.loc Store.object :=
  {[ 1%positive := Store.DataFrameObj march_grid ]}.

(** The empty grid with 5 on the 29th of February. *)
Definition leap_grid : DataFrame := with_cell 29 2 5 empty_grid.

(** * Properties *)

Example to_datetime_1_jan :
  to_datetime (1, "January"%string) 2021 = Ok (mkTimestamp 2021 1 1).
Proof. vm_compute. reflexivity. Qed.

Example to_datetime_31_dec :
  to_datetime (31, "december"%string) 2021 = Ok (mkTimestamp 2021 12 31).
Proof. vm_compute. reflexivity. Qed.

Example to_datetime_31_apr :
  to_datetime (31, "April"%string) 2021 = Raise ValueError.
Proof. vm_compute. reflexivity. Qed.

Example to_datetime_29_feb :
  to_datetime (29, "February"%string) 2021 = Raise ValueError.
Proof. vm_compute. reflexivity. Qed.

Example to_datetime_29_feb_leap :
  to_datetime (29, "February"%string) 2024 = Ok (mkTimestamp 2024 2 29).
Proof. vm_compute. reflexivity. Qed.

Example to_datetime_32_jan :
  to_datetime (32, "January"%string) 2021 = Raise ValueError.
Proof. vm_compute. reflexivity. Qed.

Example to_datetime_bad_month :
  to_datetime (1, "Total"%string) 2021 = Raise ValueError.
Proof. vm_compute. reflexivity. Qed.

(** ** Outcomes of [mapM] *)

Section mapM_result.
Context {A B : Type} (f : A → result B).

Lemma mapM_Ok_Forall2 l k :
  mapM f l = Ok k ↔ Forall2 (λ x y, f x = Ok y) l k.
Proof.
  revert k. induction l as [|x l IH]; intros k; simpl.
  - split.
    + intros [= <-]. constructor.
    + intros Hk. inversion Hk. reflexivity.
  - split.
    + destruct (f x) as [y|e] eqn:Hx; simpl; [|discriminate].
      destruct (mapM f l) as [k'|e] eqn:Hl; simpl; [|discriminate].
      intros [= <-]. constructor; [assumption|]. by apply IH.
    + intros Hk. inversion Hk as [|? y ? k' Hy Hk']; subst.
      rewrite Hy. simpl. apply IH in Hk'. rewrite Hk'. reflexivity.
Qed.

Lemma mapM_Ok_length l k : mapM f l = Ok k → length k = length l.
Proof.
  intros H. apply mapM_Ok_Forall2 in H.
  symmetry. eapply Forall2_length, H.
Qed.

Lemma mapM_Raise_elem l e :
  mapM f l = Raise e → ∃ x, x ∈ l ∧ f x = Raise e.
Proof.
  induction l as [|x l IH]; simpl; [discriminate|].
  destruct (f x) as [y|e'] eqn:Hx; simpl.
  - destruct (mapM f l) as [k|e'] eqn:Hl; simpl; [discriminate|].
    intros [= <-]. destruct IH as (z & Hz & Hfz); [reflexivity|].
    exists z. split; [by right|assumption].
  - intros [= <-]. exists x. split; [by left|assumption].
Qed.

Lemma mapM_elem_Raise l x e :
  x ∈ l → f x = Raise e → ∃ e', mapM f l = Raise e'.
Proof.
  intros Hin Hx. destruct (mapM f l) as [k|e'] eqn:Hl; [|by eexists].
  apply mapM_Ok_Forall2 in Hl.
  apply list_elem_of_lookup in Hin as [i Hi].
  exfalso.
  destruct (Forall2_lookup_l _ _ _ i x Hl Hi) as (y & _ & Hy). congruence.
Qed.

Lemma mapM_total l :
  Forall (λ x, ∃ y, f x = Ok y) l → ∃ k, mapM f l = Ok k.
Proof.
  induction 1 as [|x l [y Hy] _ [k Hk]]; simpl.
  - by eexists.
  - rewrite Hy, Hk. simpl. by eexists.
Qed.
End mapM_result.

(** ** The chronological order *)

Lemma Timestamp_eq_intro a b :
  ts_year a = ts_year b → ts_month a = ts_month b → ts_day a = ts_day b →
  a = b.
Proof. destruct a, b; simpl; congruence. Qed.

#[global] Instance Timestamp_le_total : Total Timestamp_le.
Proof.
  intros a b. unfold Timestamp_le, Timestamp_lt.
  destruct (decide (ts_year a = ts_year b)) as [Hy|Hy]; [|lia].
  destruct (decide (ts_month a = ts_month b)) as [Hm|Hm]; [|lia].
  destruct (decide (ts_day a = ts_day b)) as [Hd|Hd]; [|lia].
  left. right. by apply Timestamp_eq_intro.
Qed.

#[global] Instance Timestamp_lt_trans : Transitive Timestamp_lt.
Proof. intros a b c. unfold Timestamp_lt. lia. Qed.

#[global] Instance Timestamp_le_trans : Transitive Timestamp_le.
Proof.
  intros a b c [Hab | ->] [Hbc | ->]; unfold Timestamp_le; auto.
  left. by etrans.
Qed.

Lemma Timestamp_lt_irrefl a : ¬ Timestamp_lt a a.
Proof. unfold Timestamp_lt. lia. Qed.

#[global] Instance Timestamp_le_antisymm : AntiSymm (=) Timestamp_le.
Proof.
  intros a b [Hab| ->] [Hba|Heq]; try done.
  exfalso. unfold Timestamp_lt in *. lia.
Qed.

#[global] Instance index_le_total : Total index_le.
Proof. intros a b. unfold index_le. apply (total Timestamp_le). Qed.

#[global] Instance index_le_trans : Transitive index_le.
Proof. intros a b c. unfold index_le. apply (transitivity (R:=Timestamp_le)). Qed.

(** ** [sort_index] *)

Lemma sort_index_Permutation s : sort_index s ≡ₚ s.
Proof. apply merge_sort_Permutation. Qed.

Lemma sort_index_sorted s : StronglySorted Timestamp_le ((sort_index s).*1).
Proof.
  apply StronglySorted_fmap with (R1 := index_le); [done|].
  apply (StronglySorted_merge_sort index_le).
Qed.

(** X19: Entries with distinct labels have one sorted arrangement: any sorting
    algorithm returns what [sort_index] returns. *)
Lemma sort_index_unique s s' :
  NoDup (s.*1) → s' ≡ₚ s → StronglySorted Timestamp_le (s'.*1) →
  s' = sort_index s.
Proof.
  intros Hnd Hp Hs'.
  assert (Hp' : s' ≡ₚ sort_index s) by (by rewrite sort_index_Permutation).
  pose proof (sort_index_sorted s) as Hs.
  assert (Hnd' : NoDup (s'.*1)) by (by rewrite Hp).
  clear Hp Hnd. revert Hnd' Hs' Hp' Hs. generalize (sort_index s).
  intros l. revert l.
  induction s' as [|[t v] s' IH]; intros l Hnd Hs' Hp Hs.
  - by apply Permutation_nil_l in Hp.
  - destruct l as [|[t' v'] l]; [by apply Permutation_nil_r in Hp|].
    simpl in *. apply NoDup_cons in Hnd as [Hnin Hnd].
    apply StronglySorted_inv in Hs' as [Hs' Hall'].
    apply StronglySorted_inv in Hs as [Hs Hall].
    assert (Hin : (t', v') ∈ (t, v) :: s') by (rewrite Hp; left).
    assert (Hin' : (t, v) ∈ (t', v') :: l) by (rewrite <-Hp; left).
    assert (Heq : (t, v) = (t', v')).
    { apply elem_of_cons in Hin as [Hin|Hin]; [done|].
      apply elem_of_cons in Hin' as [Hin'|Hin']; [done|].
      assert (t = t') as ->.
      { apply (anti_symm Timestamp_le).
        - rewrite Forall_forall in Hall'. apply Hall'.
          apply list_elem_of_fmap. by exists (t', v').
        - rewrite Forall_forall in Hall. apply Hall.
          apply list_elem_of_fmap. by exists (t, v). }
      exfalso. apply Hnin. apply list_elem_of_fmap. by exists (t', v'). }
    inversion Heq; subst. f_equal.
    apply IH; try done. by apply (inj (cons _)) in Hp.
Qed.

(** ** Shape of the result of [as_time_series] *)

Lemma as_time_series_Ok df ts :
  as_time_series df = Ok ts ↔
  ∃ index, mapM (λ day_month, to_datetime day_month 2021) ((stack df).*1) = Ok index
           ∧ ts = sort_index (zip index ((stack df).*2)).
Proof.
  unfold as_time_series. split.
  - destruct (mapM _ _) as [index|e] eqn:Hm; simpl; [|discriminate].
    intros [= <-]. by exists index.
  - intros (index & -> & ->). reflexivity.
Qed.

Lemma as_time_series_values df ts :
  as_time_series df = Ok ts → ts.*2 ≡ₚ (stack df).*2.
Proof.
  intros (index & Hm & ->)%as_time_series_Ok.
  rewrite sort_index_Permutation. rewrite snd_zip; [done|].
  apply mapM_Ok_length in Hm. rewrite Hm, !length_fmap. lia.
Qed.

Lemma as_time_series_labels df ts :
  as_time_series df = Ok ts →
  ∃ index, Forall2 (λ day_month t, to_datetime day_month 2021 = Ok t)
             ((stack df).*1) index
           ∧ ts.*1 ≡ₚ index.
Proof.
  intros (index & Hm & ->)%as_time_series_Ok.
  exists index. split; [by apply mapM_Ok_Forall2|].
  rewrite sort_index_Permutation. rewrite fst_zip; [done|].
  apply mapM_Ok_length in Hm. rewrite Hm, !length_fmap. lia.
Qed.

Lemma stack_values_present df : Forall is_Some ((stack df).*2).
Proof.
  apply Forall_fmap, Forall_forall. intros e He.
  unfold stack in He. by apply list_elem_of_filter in He as [? _].
Qed.

(** ** Totals *)

Lemma sum_present_app l k :
  sum_present (l ++ k) = sum_present l + sum_present k.
Proof. induction l as [|o l IH]; simpl; lia. Qed.

#[global] Instance sum_present_Permutation : Proper ((≡ₚ) ==> (=)) sum_present.
Proof. induction 1; simpl; lia. Qed.

Lemma sum_present_concat data :
  sum_present (concat data) = foldr (λ row acc, sum_present row + acc) 0 data.
Proof.
  induction data as [|row data IH]; simpl; [done|].
  rewrite sum_present_app. lia.
Qed.

Lemma sum_present_stack {I} (s : Series I) :
  sum_present ((filter (λ e, is_Some e.2) s).*2) = sum_present (s.*2).
Proof.
  induction s as [|[i [v|]] s IH]; [done| |].
  - rewrite filter_cons_True by (simpl; eauto). csimpl. by rewrite IH.
  - by rewrite filter_cons_False by (simpl; by intros [? ?]).
Qed.

Lemma row_entries_values cols i row :
  (length row ≤ length cols)%nat → (row_entries cols i row).*2 = row.
Proof.
  unfold row_entries. revert row.
  induction cols as [|c cols IH]; intros [|v row] Hlen; simpl in *;
    try done; try lia.
  f_equal. apply IH. lia.
Qed.

Lemma cells_values df :
  wf_DataFrame df → (cells df).*2 = concat (df_data df).
Proof.
  intros [Hlen Hrows]. unfold cells.
  revert Hlen Hrows. generalize (df_index df) as idx.
  generalize (df_columns df) as cols. intros cols idx Hlen Hrows.
  revert idx Hlen.
  induction (df_data df) as [|row data IH]; intros idx Hlen.
  - by destruct idx.
  - destruct idx as [|i idx]; [done|]. simpl in *.
    apply Forall_cons in Hrows as [Hrow Hrows].
    rewrite fmap_app, row_entries_values by lia.
    f_equal. apply IH; [done|lia].
Qed.

Section column_sums.
Context {C : Type}.
Implicit Types (cols : list C) (g h : nat → Z).

Lemma sum_imap_cons g c cols :
  sum_present ((imap (λ j c, (c, Some (g j))) (c :: cols)).*2)
  = g 0%nat + sum_present ((imap (λ j c, (c, Some (g (S j)))) cols).*2).
Proof. reflexivity. Qed.

Lemma sum_imap_zero g cols :
  (∀ j, g j = 0) →
  sum_present ((imap (λ j c, (c, Some (g j))) cols).*2) = 0.
Proof.
  revert g. induction cols as [|c cols IH]; intros g Hg; [done|].
  rewrite sum_imap_cons, Hg. apply (IH (λ j, g (S j))). intros j. apply Hg.
Qed.

Lemma sum_imap_add g h cols :
  sum_present ((imap (λ j c, (c, Some (g j + h j))) cols).*2)
  = sum_present ((imap (λ j c, (c, Some (g j))) cols).*2)
    + sum_present ((imap (λ j c, (c, Some (h j))) cols).*2).
Proof.
  revert g h. induction cols as [|c cols IH]; intros g h; [done|].
  rewrite (sum_imap_cons (λ j, g j + h j)), (sum_imap_cons g), (sum_imap_cons h).
  pose proof (IH (λ j, g (S j)) (λ j, h (S j))) as IH'. cbv beta in IH'.
  lia.
Qed.

Lemma sum_imap_row (row : list (option Z)) cols :
  length row = length cols →
  sum_present ((imap (λ j c, (c, Some (default 0 (mjoin (row !! j))))) cols).*2)
  = sum_present row.
Proof.
  revert row. induction cols as [|c cols IH]; intros [|v row] Hlen;
    try done.
  rewrite (sum_imap_cons (λ j, default 0 (mjoin ((v :: row) !! j)))).
  simpl in Hlen. specialize (IH row ltac:(lia)).
  change (sum_present (v :: row)) with (default 0 v + sum_present row).
  rewrite <-IH. reflexivity.
Qed.
End column_sums.

Lemma df_sum_sum_cells df :
  wf_DataFrame df → df_sum_sum df = sum_present (concat (df_data df)).
Proof.
  intros [_ Hrows]. unfold df_sum_sum, series_sum, df_sum, column_cells.
  revert Hrows. generalize (df_columns df) as cols. intros cols.
  induction (df_data df) as [|row data IH]; intros Hrows; simpl.
  - by apply sum_imap_zero.
  - apply Forall_cons in Hrows as [Hrow Hrows].
    rewrite sum_present_app, <-(IH Hrows), <-(sum_imap_row row cols Hrow).
    rewrite <-(sum_imap_add (λ j, default 0 (mjoin (row !! j)))). reflexivity.
Qed.

(** ** The cumulative sum *)

Lemma cumsum_from_labels {I} acc (s : Series I) :
  (cumsum_from acc s).*1 = s.*1.
Proof.
  revert acc. induction s as [|[i [v|]] s IH]; intros acc; csimpl;
    by rewrite ?IH.
Qed.

Lemma cumsum_from_sums {I} acc (s : Series I) :
  Forall (λ e, ∃ v, e.2 = Some v ∧ 0 ≤ v) s →
  ∃ sums, (cumsum_from acc s).*2 = Some <$> sums
          ∧ Forall (Z.le acc) sums
          ∧ StronglySorted Z.le sums
          ∧ default acc (last sums) = acc + series_sum s.
Proof.
  intros Hs. revert acc.
  induction Hs as [|[i o] s (v & Ho & Hv) _ IH]; intros acc.
  - exists []. repeat split; try constructor. unfold series_sum. simpl. lia.
  - simpl in Ho. subst o. destruct (IH (acc + v)) as (sums & Heq & Hge & Hsorted & Hlast).
    exists ((acc + v) :: sums). csimpl. rewrite Heq. repeat split.
    + constructor; [lia|]. eapply Forall_impl; [exact Hge|]. simpl. lia.
    + by constructor.
    + rewrite last_cons. unfold series_sum in *. csimpl.
      destruct (last sums); simpl in *; lia.
Qed.

(** C5: on a series whose values are all present and non-negative,
    [cumsum] keeps the labels, its values never decrease along the series,
    and its last value is the total of the series. *)
Theorem cumsum_monotone_total {I} (ts : Series I) :
  Forall (λ e, ∃ v, e.2 = Some v ∧ 0 ≤ v) ts →
  ∃ sums, (cumsum ts).*2 = Some <$> sums
          ∧ (cumsum ts).*1 = ts.*1
          ∧ StronglySorted Z.le sums
          ∧ (ts ≠ [] → last sums = Some (series_sum ts)).
Proof.
  intros Hts. destruct (cumsum_from_sums 0 ts Hts) as (sums & Heq & _ & Hsorted & Hlast).
  exists sums. repeat split; try done.
  - apply cumsum_from_labels.
  - intros Hne. destruct (last sums) as [x|] eqn:Hx; simpl in Hlast; [by f_equal|].
    apply last_None in Hx. subst sums.
    destruct ts as [|[i o] ts]; [done|].
    apply Forall_cons in Hts as [(v & Ho & _) _]. simpl in Ho. subst o.
    discriminate Heq.
Qed.

Lemma cumsum_monotone_total_witness :
  Forall (λ e, ∃ v, e.2 = Some v ∧ 0 ≤ v) january_series
  ∧ ∃ sums, (cumsum january_series).*2 = Some <$> sums
            ∧ (cumsum january_series).*1 = january_series.*1
            ∧ StronglySorted Z.le sums
            ∧ (january_series ≠ [] → last sums = Some (series_sum january_series)).
Proof.
  assert (H : Forall (λ e, ∃ v, e.2 = Some v ∧ 0 ≤ v) january_series).
  { repeat constructor; simpl; eexists; (split; [reflexivity|lia]). }
  split; [exact H|]. exact (cumsum_monotone_total january_series H).
Defined.

(** ** Selecting the first entry that satisfies a predicate *)

Section filter_first.
Context {A : Type} (P : A → Prop) `{∀ x, Decision (P x)}.

Lemma filter_none (l : list A) : Forall (λ x, ¬ P x) l → filter P l = [].
Proof.
  induction 1 as [|x l Hx _ IH]; [done|].
  by rewrite filter_cons_False.
Qed.

Lemma filter_first (l : list A) :
  Exists P l →
  ∃ l1 x l2, l = l1 ++ x :: l2 ∧ Forall (λ z, ¬ P z) l1 ∧ P x
             ∧ filter P l = x :: filter P l2.
Proof.
  induction l as [|y l IH]; intros Hex; [by inversion Hex|].
  destruct (decide (P y)) as [Hy|Hy].
  - exists [], y, l. repeat split; [constructor|done|by rewrite filter_cons_True].
  - destruct IH as (l1 & x & l2 & -> & Hl1 & Hx & Hf).
    { inversion Hex; [done|assumption]. }
    exists (y :: l1), x, l2. repeat split; [by constructor|done|].
    by rewrite filter_cons_False.
Qed.
End filter_first.

(** ** The goal-crossing date *)

Lemma argmin_from_keeps {I} (d : I) (v : Z) (s : Series I) :
  Forall (λ e, ∃ x, e.2 = Some x ∧ v ≤ x) s →
  argmin_from (Some (d, v)) s = Some (d, v).
Proof.
  induction 1 as [|[i o] s (x & Ho & Hx) _ IH]; [done|].
  simpl in Ho. subst o. simpl.
  destruct (Z.ltb_spec x v); [lia|done].
Qed.

Lemma cumsum_from_sorted {I} acc (s : Series I) :
  Forall (λ e, ∃ v, e.2 = Some v ∧ 0 ≤ v) s →
  Forall (λ e, ∃ x, e.2 = Some x ∧ acc ≤ x) (cumsum_from acc s)
  ∧ StronglySorted (λ a b, ∃ x y, a.2 = Some x ∧ b.2 = Some y ∧ x ≤ y)
      (cumsum_from acc s).
Proof.
  intros Hs. revert acc.
  induction Hs as [|[i o] s (v & Ho & Hv) _ IH]; intros acc.
  - split; constructor.
  - simpl in Ho. subst o. simpl.
    destruct (IH (acc + v)) as [Hge Hsorted]. split.
    + constructor; [exists (acc + v); simpl; split; [done|lia]|].
      eapply Forall_impl; [exact Hge|].
      intros e (x & He & Hx). exists x. split; [done|lia].
    + constructor; [done|].
      eapply Forall_impl; [exact Hge|].
      intros e (x & He & Hx). by exists (acc + v), x.
Qed.

(** C3, as the code has it: when the cumulative sum never exceeds 10000,
    the selection is empty, [idxmin] raises ValueError and so does the
    computation of [goal_date]: nothing is reported, and no "not reached"
    value is produced either. *)
Theorem goal_date_not_reached (ts : Series Timestamp) :
  Forall (λ e, ¬ gt_bound 10000 e.2) (cumsum ts) →
  goal_timestamp ts = Raise ValueError ∧ goal_date ts = Raise ValueError.
Proof.
  intros Hle. unfold goal_date, goal_timestamp, where_gt.
  rewrite (filter_none _ _ Hle). done.
Qed.

Lemma goal_date_not_reached_witness :
  Forall (λ e, ¬ gt_bound 10000 e.2) (cumsum january_series)
  ∧ goal_timestamp january_series = Raise ValueError
  ∧ goal_date january_series = Raise ValueError.
Proof.
  assert (H : Forall (λ e, ¬ gt_bound 10000 e.2) (cumsum january_series)).
  { repeat constructor; simpl; lia. }
  split; [exact H|]. exact (goal_date_not_reached january_series H).
Defined.

(** C3, as stated, fails: the cumulative sum of [january_series] stays
    below 10000 and [goal_date] ends in an exception. *)
Lemma goal_date_raises_below_goal :
  Forall (λ e, ¬ gt_bound 10000 e.2) (cumsum january_series)
  ∧ ¬ ∃ text, goal_date january_series = Ok text.
Proof.
  split.
  - repeat constructor; simpl; lia.
  - intros [text Htext]. vm_compute in Htext. discriminate Htext.
Qed.

(** C4: on a series in strict date order whose values are present and
    non-negative and whose cumulative sum exceeds 10000 somewhere,
    [goal_timestamp] is a date [d] of the series at which the cumulative sum
    is above 10000, no date with a cumulative sum above 10000 is earlier,
    and a date whose cumulative sum is 10000 or less is not [d]. *)
Theorem goal_timestamp_first_crossing (ts : Series Timestamp) :
  StronglySorted Timestamp_lt (ts.*1) →
  Forall (λ e, ∃ v, e.2 = Some v ∧ 0 ≤ v) ts →
  Exists (λ e, gt_bound 10000 e.2) (cumsum ts) →
  ∃ d v, goal_timestamp ts = Ok (Some d)
         ∧ goal_date ts = Ok (strftime_B_dth d)
         ∧ (d, Some v) ∈ cumsum ts ∧ 10000 < v
         ∧ (∀ d' v', (d', Some v') ∈ cumsum ts → 10000 < v' → Timestamp_le d d')
         ∧ (∀ d' v', (d', Some v') ∈ cumsum ts → v' ≤ 10000 → d' ≠ d).
Proof.
  intros Hdates Hvals Hex.
  destruct (filter_first _ _ Hex) as (l1 & [d o] & l2 & Hcs & Hl1 & Hd & Hf).
  destruct o as [v|]; [|done]. simpl in Hd.
  destruct (cumsum_from_sorted 0 ts Hvals) as [_ Hsorted].
  fold (cumsum ts) in Hsorted. rewrite Hcs in Hsorted.
  apply StronglySorted_app in Hsorted as (_ & _ & Hsorted).
  apply StronglySorted_cons in Hsorted as [Hl2 _].
  assert (Hlabels : StronglySorted Timestamp_lt ((l1 ++ (d, Some v) :: l2).*1)).
  { rewrite <-Hcs. unfold cumsum. by rewrite cumsum_from_labels. }
  rewrite fmap_app, fmap_cons in Hlabels.
  apply StronglySorted_app in Hlabels as (Hbefore & _ & Hlabels).
  apply StronglySorted_cons in Hlabels as [Hafter _].
  rewrite Forall_forall in Hafter.
  assert (Hgoal : goal_timestamp ts = Ok (Some d)).
  { unfold goal_timestamp, where_gt. rewrite Hf. unfold idxmin.
    cbn [argmin_from]. rewrite argmin_from_keeps; [done|].
    apply Forall_forall. intros e [_ He]%list_elem_of_filter.
    rewrite Forall_forall in Hl2.
    destruct (Hl2 e He) as (x & y & [= <-] & Hy & Hxy). by exists y. }
  exists d, v. split; [done|]. split; [|split; [|split; [done|split]]].
  - unfold goal_date. by rewrite Hgoal.
  - rewrite Hcs. apply elem_of_app. right. left.
  - intros d' v' Hin Hv'. rewrite Hcs in Hin.
    apply elem_of_app in Hin as [Hin|Hin].
    + rewrite Forall_forall in Hl1. by destruct (Hl1 _ Hin).
    + apply elem_of_cons in Hin as [[= -> ->]|Hin]; [by right|].
      left. apply Hafter. apply list_elem_of_fmap. by exists (d', Some v').
  - intros d' v' Hin Hv' ->. rewrite Hcs in Hin.
    apply elem_of_app in Hin as [Hin|Hin].
    + apply (Timestamp_lt_irrefl d). apply Hbefore; [|left].
      apply list_elem_of_fmap. by exists (d, Some v').
    + apply elem_of_cons in Hin as [[= ->]|Hin]; [lia|].
      apply (Timestamp_lt_irrefl d). apply Hafter.
      apply list_elem_of_fmap. by exists (d, Some v').
Qed.

Lemma goal_timestamp_first_crossing_witness :
  StronglySorted Timestamp_lt (august_series.*1)
  ∧ Forall (λ e, ∃ v, e.2 = Some v ∧ 0 ≤ v) august_series
  ∧ Exists (λ e, gt_bound 10000 e.2) (cumsum august_series)
  ∧ ∃ d v, goal_timestamp august_series = Ok (Some d)
           ∧ goal_date august_series = Ok (strftime_B_dth d)
           ∧ (d, Some v) ∈ cumsum august_series ∧ 10000 < v
           ∧ (∀ d' v', (d', Some v') ∈ cumsum august_series → 10000 < v' →
                       Timestamp_le d d')
           ∧ (∀ d' v', (d', Some v') ∈ cumsum august_series → v' ≤ 10000 →
                       d' ≠ d).
Proof.
  assert (H1 : StronglySorted Timestamp_lt (august_series.*1)).
  { repeat constructor; unfold Timestamp_lt; simpl; lia. }
  assert (H2 : Forall (λ e, ∃ v, e.2 = Some v ∧ 0 ≤ v) august_series).
  { repeat constructor; simpl; eexists; (split; [reflexivity|lia]). }
  assert (H3 : Exists (λ e, gt_bound 10000 e.2) (cumsum august_series)).
  { do 3 apply Exists_cons_tl. apply Exists_cons_hd. simpl. lia. }
  repeat split; [exact H1|exact H2|exact H3|].
  exact (goal_timestamp_first_crossing august_series H1 H2 H3).
Defined.

Example goal_date_august : goal_date august_series = Ok "August 8th"%string.
Proof. vm_compute. reflexivity. Qed.

Example cumsum_august :
  (cumsum august_series).*2 = [Some 9970; Some 10000; Some 10000; Some 10030].
Proof. reflexivity. Qed.

(** ** The reshaped series and the grid *)

Example as_time_series_march : as_time_series march_grid = Ok march_series.
Proof. vm_compute. reflexivity. Qed.

Example wf_march_grid : wf_DataFrame march_grid.
Proof. split; [reflexivity|]. repeat constructor. Qed.

(** C10: every entry of the series returned by [as_time_series] has a
    present value, and the values of the series are the present cells of the
    grid: a missing cell leaves no entry. *)
Theorem as_time_series_no_missing df ts :
  as_time_series df = Ok ts →
  Forall (λ e, is_Some e.2) ts
  ∧ ts.*2 ≡ₚ (filter (λ e, is_Some e.2) (cells df)).*2.
Proof.
  intros Hts. pose proof (as_time_series_values _ _ Hts) as Hp. split; [|exact Hp].
  apply Forall_fmap with (f := snd) (P := is_Some).
  rewrite Hp. apply stack_values_present.
Qed.

Lemma as_time_series_no_missing_witness :
  as_time_series march_grid = Ok march_series
  ∧ Forall (λ e, is_Some e.2) march_series
  ∧ march_series.*2 ≡ₚ (filter (λ e, is_Some e.2) (cells march_grid)).*2.
Proof.
  assert (H : as_time_series march_grid = Ok march_series).
  { vm_compute. reflexivity. }
  split; [exact H|]. exact (as_time_series_no_missing march_grid march_series H).
Defined.

(** C6: the values of the series returned by [as_time_series] add up to
    [df.sum().sum()], the total of the present cells of the grid. *)
Theorem as_time_series_sum df ts :
  wf_DataFrame df →
  as_time_series df = Ok ts →
  series_sum ts = df_sum_sum df
  ∧ df_sum_sum df = sum_present (concat (df_data df)).
Proof.
  intros Hwf Hts. split; [|by apply df_sum_sum_cells].
  rewrite df_sum_sum_cells by done. unfold series_sum.
  rewrite (as_time_series_values _ _ Hts). unfold stack.
  rewrite sum_present_stack. by rewrite cells_values.
Qed.

Lemma as_time_series_sum_witness :
  wf_DataFrame march_grid
  ∧ as_time_series march_grid = Ok march_series
  ∧ series_sum march_series = df_sum_sum march_grid
  ∧ df_sum_sum march_grid = sum_present (concat (df_data march_grid)).
Proof.
  assert (H1 : wf_DataFrame march_grid).
  { split; [reflexivity|]. repeat constructor. }
  assert (H2 : as_time_series march_grid = Ok march_series).
  { vm_compute. reflexivity. }
  split; [exact H1|]. split; [exact H2|].
  exact (as_time_series_sum march_grid march_series H1 H2).
Defined.

Example df_sum_sum_march : df_sum_sum march_grid = 16.
Proof. vm_compute. reflexivity. Qed.

(** ** [to_datetime] on the labels of a day x month grid *)

Lemma to_datetime_grid d m :
  d ∈ seqZ 1 31 → m ∈ MONTHS → to_datetime (d, m) 2021 = date_of 2021 (d, m).
Proof.
  revert d m.
  assert (H : Forall (λ d, Forall (λ m, to_datetime (d, m) 2021 = date_of 2021 (d, m))
                             MONTHS) (seqZ 1 31)).
  { apply (bool_decide_unpack _). vm_compute. exact I. }
  intros d m Hd Hm. rewrite Forall_forall in H.
  specialize (H d Hd). rewrite Forall_forall in H. by apply H.
Qed.

Lemma to_datetime_Raise day_month year e :
  to_datetime day_month year = Raise e → e = ValueError.
Proof.
  destruct day_month as [d m]. unfold to_datetime, strptime_dBY.
  destruct (split_slash _) as [[d_s rest]|]; simpl; [|congruence].
  destruct (split_slash _) as [[m_s y_s]|]; simpl; [|congruence].
  destruct (match_d _); simpl; [|congruence].
  destruct (match_B _); simpl; [|congruence].
  destruct (match_Y _); simpl; [|congruence].
  destruct (_ <=? _); congruence.
Qed.

Lemma date_of_Ok year day_month t :
  date_of year day_month = Ok t →
  calendar_date year day_month = true
  ∧ ts_year t = year ∧ ts_day t = day_month.1
  ∧ index_from 1 day_month.2 MONTHS = Some (ts_month t).
Proof.
  unfold date_of. destruct (index_from _ _ _) as [k|]; [|done].
  destruct (calendar_date _ _); [|done]. by intros [= <-].
Qed.

Lemma index_from_Some n s names k :
  index_from n s names = Some k →
  n ≤ k < n + Z.of_nat (length names) ∧ names !! Z.to_nat (k - n) = Some s.
Proof.
  revert n. induction names as [|x names IH]; intros n; simpl; [done|].
  destruct (String.eqb_spec s x) as [->|Hne].
  - intros [= <-]. split; [lia|]. by rewrite Z.sub_diag.
  - intros Hk. destruct (IH _ Hk) as [Hle Hlook]. split; [lia|].
    replace (Z.to_nat (k - n)) with (S (Z.to_nat (k - (n + 1)))) by lia.
    done.
Qed.

Lemma date_of_inj year p q t :
  date_of year p = Ok t → date_of year q = Ok t → p = q.
Proof.
  intros (_ & _ & Hd & Hm)%date_of_Ok (_ & _ & Hd' & Hm')%date_of_Ok.
  destruct p as [d m], q as [d' m']; cbn [fst snd] in *.
  apply index_from_Some in Hm as [_ Hm]. apply index_from_Some in Hm' as [_ Hm'].
  congruence.
Qed.

Lemma date_of_valid year day_month t :
  date_of year day_month = Ok t →
  ts_year t = year ∧ valid_date year (ts_month t) (ts_day t).
Proof.
  intros (Hcal & Hy & Hd & Hm)%date_of_Ok. split; [done|].
  unfold calendar_date in Hcal. rewrite Hm in Hcal.
  apply index_from_Some in Hm as [Hk _]. simpl in Hk.
  apply andb_true_iff in Hcal as [?%Z.leb_le ?%Z.leb_le].
  unfold valid_date. rewrite Hd. lia.
Qed.

(** ** The labels of the stacked cells *)

Lemma row_entries_labels cols i row :
  (row_entries cols i row).*1 `sublist_of` ((λ m, (i, m)) <$> cols).
Proof.
  unfold row_entries. revert row.
  induction cols as [|c cols IH]; intros [|v row]; csimpl;
    try apply sublist_nil_l.
  apply sublist_skip, IH.
Qed.

Lemma cells_labels_sublist df : (cells df).*1 `sublist_of` grid_labels df.
Proof.
  unfold cells, grid_labels. generalize (df_data df) as data.
  induction (df_index df) as [|i idx IH]; intros [|row data]; csimpl;
    try apply sublist_nil_l.
  rewrite fmap_app. apply sublist_app; [apply row_entries_labels|apply IH].
Qed.

Lemma stack_labels_sublist df : (stack df).*1 `sublist_of` grid_labels df.
Proof.
  etrans; [|apply cells_labels_sublist].
  unfold stack. apply fmap_sublist, sublist_filter.
Qed.

Lemma elem_of_grid_labels df d m :
  (d, m) ∈ grid_labels df ↔ d ∈ df_index df ∧ m ∈ df_columns df.
Proof.
  unfold grid_labels. rewrite list_elem_of_bind. split.
  - intros (d' & Hm & Hd). apply list_elem_of_fmap in Hm as (m' & [= -> ->] & Hm).
    done.
  - intros [Hd Hm]. exists d. split; [|done].
    apply list_elem_of_fmap. by exists m.
Qed.

Lemma grid_labels_NoDup df :
  NoDup (df_index df) → NoDup (df_columns df) → NoDup (grid_labels df).
Proof.
  intros Hidx Hcols. unfold grid_labels. apply NoDup_bind; [| |done].
  - intros d d' [d0 m] _ _ Hm Hm'.
    apply list_elem_of_fmap in Hm as (? & [= -> ->] & _).
    apply list_elem_of_fmap in Hm' as (? & [= -> ->] & _). done.
  - intros d _. apply NoDup_fmap_2; [|done]. by intros m m' [= ->].
Qed.

Section distinct_results.
Context {A B : Type} (f : A → result B).

Lemma Forall2_Ok_NoDup l k :
  Forall2 (λ x y, f x = Ok y) l k →
  (∀ x x' y, x ∈ l → x' ∈ l → f x = Ok y → f x' = Ok y → x = x') →
  NoDup l → NoDup k.
Proof.
  induction 1 as [|x y l k Hxy Hlk IH]; intros Hinj Hnd; [constructor|].
  apply NoDup_cons in Hnd as [Hx Hnd]. constructor.
  - intros Hy. apply list_elem_of_lookup in Hy as [j Hj].
    destruct (Forall2_lookup_r _ _ _ _ _ Hlk Hj) as (x' & Hx' & Hfx').
    apply Hx. rewrite (Hinj x x' y); [by eapply list_elem_of_lookup_2|left|..];
      try done.
    right. by eapply list_elem_of_lookup_2.
  - apply IH; [|done]. intros x1 x2 y' H1 H2. apply Hinj; by right.
Qed.
End distinct_results.

Lemma StronglySorted_le_lt (l : list Timestamp) :
  StronglySorted Timestamp_le l → NoDup l → StronglySorted Timestamp_lt l.
Proof.
  induction 1 as [|t l Hl IH Ht]; intros Hnd; [constructor|].
  apply NoDup_cons in Hnd as [Hnin Hnd]. constructor; [by apply IH|].
  rewrite Forall_forall in Ht. apply Forall_forall. intros t' Ht'.
  destruct (Ht t' Ht') as [Hlt| ->]; [done|]. by destruct Hnin.
Qed.

(** The dates of the reshaped series of a grid whose row labels are days of
    the month and whose column labels are month names, without repetition. *)
Lemma as_time_series_dates df ts :
  Forall (λ d, d ∈ seqZ 1 31) (df_index df) → NoDup (df_index df) →
  Forall (λ m, m ∈ MONTHS) (df_columns df) → NoDup (df_columns df) →
  as_time_series df = Ok ts →
  StronglySorted Timestamp_lt (ts.*1)
  ∧ NoDup (ts.*1)
  ∧ Forall (λ t, ts_year t = 2021 ∧ valid_date 2021 (ts_month t) (ts_day t)) (ts.*1).
Proof.
  intros Hidx Hidx_nd Hcols Hcols_nd Hts.
  destruct (as_time_series_labels _ _ Hts) as (index & Hindex & Hperm).
  assert (Hgrid : ∀ p, p ∈ (stack df).*1 → to_datetime p 2021 = date_of 2021 p).
  { intros [d m] Hp. eapply elem_of_sublist in Hp; [|apply stack_labels_sublist].
    apply elem_of_grid_labels in Hp as [Hd Hm].
    rewrite Forall_forall in Hidx. rewrite Forall_forall in Hcols.
    apply to_datetime_grid; auto. }
  assert (Hnd : NoDup index).
  { eapply Forall2_Ok_NoDup; [exact Hindex| |].
    - intros p q t Hp Hq Hpt Hqt. cbv beta in Hpt, Hqt.
      rewrite Hgrid in Hpt, Hqt by done.
      by eapply date_of_inj.
    - eapply sublist_NoDup; [|apply stack_labels_sublist].
      by apply grid_labels_NoDup. }
  assert (Hnd' : NoDup (ts.*1)) by (by rewrite Hperm).
  split; [|split; [done|]].
  - apply StronglySorted_le_lt; [|done].
    apply as_time_series_Ok in Hts as (index' & _ & ->). apply sort_index_sorted.
  - rewrite Hperm. apply Forall_forall. intros t Ht.
    apply list_elem_of_lookup in Ht as [j Hj].
    destruct (Forall2_lookup_r _ _ _ _ _ Hindex Hj) as (p & Hp & Hpt).
    cbv beta in Hpt. rewrite Hgrid in Hpt by (by eapply list_elem_of_lookup_2).
    by eapply date_of_valid.
Qed.

(** C2: the series that [as_time_series] returns for a grid of 31 rows
    labelled 1..31 and the 12 month columns is in strictly ascending date
    order, has no date twice, and every date is a date of the calendar of
    2021. *)
Theorem as_time_series_strictly_sorted df ts :
  df_index df = seqZ 1 31 →
  df_columns df = MONTHS →
  as_time_series df = Ok ts →
  StronglySorted Timestamp_lt (ts.*1)
  ∧ NoDup (ts.*1)
  ∧ Forall (λ t, ts_year t = 2021 ∧ valid_date 2021 (ts_month t) (ts_day t)) (ts.*1).
Proof.
  intros Hidx Hcols Hts. apply (as_time_series_dates df); try done.
  - rewrite Hidx. by apply Forall_forall.
  - rewrite Hidx. apply NoDup_seqZ.
  - rewrite Hcols. by apply Forall_forall.
  - rewrite Hcols. apply (bool_decide_unpack _). vm_compute. exact I.
Qed.

Lemma as_time_series_strictly_sorted_witness :
  df_index march_grid = seqZ 1 31
  ∧ df_columns march_grid = MONTHS
  ∧ as_time_series march_grid = Ok march_series
  ∧ StronglySorted Timestamp_lt (march_series.*1)
  ∧ NoDup (march_series.*1)
  ∧ Forall (λ t, ts_year t = 2021 ∧ valid_date 2021 (ts_month t) (ts_day t))
      (march_series.*1).
Proof.
  assert (H1 : df_index march_grid = seqZ 1 31) by reflexivity.
  assert (H2 : df_columns march_grid = MONTHS) by reflexivity.
  assert (H3 : as_time_series march_grid = Ok march_series).
  { vm_compute. reflexivity. }
  split; [exact H1|]. split; [exact H2|]. split; [exact H3|].
  exact (as_time_series_strictly_sorted march_grid march_series H1 H2 H3).
Defined.

(** ** Cells that are no date of the calendar *)

Lemma date_of_calendar year day_month :
  calendar_date year day_month = true → ∃ t, date_of year day_month = Ok t.
Proof.
  unfold date_of. intros Hcal. rewrite Hcal.
  unfold calendar_date in Hcal.
  destruct (index_from _ _ _) as [k|]; [by eexists|done].
Qed.

Lemma date_of_not_calendar year day_month :
  calendar_date year day_month = false → date_of year day_month = Raise ValueError.
Proof.
  unfold date_of. intros ->. by destruct (index_from _ _ _).
Qed.

Lemma as_time_series_Raise df e : as_time_series df = Raise e → e = ValueError.
Proof.
  unfold as_time_series.
  destruct (mapM _ _) as [index|e'] eqn:Hm; simpl; [done|].
  intros [= <-]. apply mapM_Raise_elem in Hm as (p & _ & Hp).
  by eapply to_datetime_Raise.
Qed.

Lemma as_time_series_raises_grid df :
  Forall (λ d, d ∈ seqZ 1 31) (df_index df) →
  Forall (λ m, m ∈ MONTHS) (df_columns df) →
  Exists (λ e, is_Some e.2 ∧ calendar_date 2021 e.1 = false) (cells df) →
  as_time_series df = Raise ValueError.
Proof.
  intros Hidx Hcols Hex.
  apply Exists_exists in Hex as ([[d m] v] & Hin & Hv & Hcal). simpl in Hv, Hcal.
  assert (Hstack : ((d, m), v) ∈ stack df).
  { unfold stack. by apply list_elem_of_filter. }
  assert (Hp : (d, m) ∈ (stack df).*1).
  { apply list_elem_of_fmap. by exists ((d, m), v). }
  assert (Hraise : to_datetime (d, m) 2021 = Raise ValueError).
  { rewrite to_datetime_grid; [by apply date_of_not_calendar|..].
    - eapply elem_of_sublist in Hp; [|apply stack_labels_sublist].
      apply elem_of_grid_labels in Hp as [Hd _].
      rewrite Forall_forall in Hidx. auto.
    - eapply elem_of_sublist in Hp; [|apply stack_labels_sublist].
      apply elem_of_grid_labels in Hp as [_ Hm].
      rewrite Forall_forall in Hcols. auto. }
  destruct (as_time_series df) as [ts|e] eqn:Hts.
  - apply as_time_series_Ok in Hts as (index & Hm & _).
    destruct (mapM_elem_Raise (λ day_month, to_datetime day_month 2021)
                _ _ _ Hp Hraise) as [e' He'].
    congruence.
  - f_equal. by eapply as_time_series_Raise.
Qed.

Lemma as_time_series_total_grid df :
  Forall (λ d, d ∈ seqZ 1 31) (df_index df) →
  Forall (λ m, m ∈ MONTHS) (df_columns df) →
  Forall (λ e, is_Some e.2 → calendar_date 2021 e.1 = true) (cells df) →
  ∃ ts, as_time_series df = Ok ts.
Proof.
  intros Hidx Hcols Hall.
  destruct (mapM_total (λ day_month, to_datetime day_month 2021) ((stack df).*1))
    as [index Hindex].
  - apply Forall_forall. intros [d m] Hp.
    assert (Hgrid : (d, m) ∈ grid_labels df).
    { eapply elem_of_sublist; [exact Hp|apply stack_labels_sublist]. }
    apply elem_of_grid_labels in Hgrid as [Hd Hm].
    rewrite Forall_forall in Hidx. rewrite Forall_forall in Hcols.
    rewrite to_datetime_grid by auto. apply date_of_calendar.
    apply list_elem_of_fmap in Hp as ([p v] & [= <-] & Hin).
    unfold stack in Hin. apply list_elem_of_filter in Hin as [Hv Hin].
    rewrite Forall_forall in Hall. by apply (Hall _ Hin).
  - eexists. apply as_time_series_Ok. by exists index.
Qed.

(** C1, as stated, fails: the grid with the 12 month columns whose only
    present cell is 5 on the 29th of February gives no series at all,
    [as_time_series] raises ValueError. *)
Lemma as_time_series_leap_grid_raises :
  df_columns leap_grid = MONTHS
  ∧ ((29, "February"%string), Some 5) ∈ cells leap_grid
  ∧ ¬ valid_date 2021 2 29
  ∧ as_time_series leap_grid = Raise ValueError.
Proof.
  split; [reflexivity|]. split; [|split].
  - apply (bool_decide_unpack _). vm_compute. exact I.
  - unfold valid_date. simpl. lia.
  - vm_compute. reflexivity.
Qed.

(** C1, as the code has it: on a grid of rows 1..31 and the 12 month
    columns, a present value in a cell that is no date of 2021 makes
    [as_time_series] raise ValueError; when every such cell is missing, a
    series is returned, and all its dates are dates of 2021. *)
Theorem as_time_series_invalid_date df :
  df_index df = seqZ 1 31 →
  df_columns df = MONTHS →
  (Exists (λ e, is_Some e.2 ∧ calendar_date 2021 e.1 = false) (cells df) →
   as_time_series df = Raise ValueError)
  ∧ (Forall (λ e, is_Some e.2 → calendar_date 2021 e.1 = true) (cells df) →
     ∃ ts, as_time_series df = Ok ts
           ∧ Forall (λ t, ts_year t = 2021
                          ∧ valid_date 2021 (ts_month t) (ts_day t)) (ts.*1)).
Proof.
  intros Hidx Hcols.
  assert (Hidx' : Forall (λ d, d ∈ seqZ 1 31) (df_index df)).
  { rewrite Hidx. by apply Forall_forall. }
  assert (Hcols' : Forall (λ m, m ∈ MONTHS) (df_columns df)).
  { rewrite Hcols. by apply Forall_forall. }
  split.
  - by apply as_time_series_raises_grid.
  - intros Hall. destruct (as_time_series_total_grid df) as [ts Hts]; try done.
    exists ts. split; [done|].
    apply (as_time_series_dates df ts); try done.
    + rewrite Hidx. apply NoDup_seqZ.
    + rewrite Hcols. apply (bool_decide_unpack _). vm_compute. exact I.
Qed.

Lemma as_time_series_invalid_date_witness :
  (df_index leap_grid = seqZ 1 31 ∧ df_columns leap_grid = MONTHS
   ∧ Exists (λ e, is_Some e.2 ∧ calendar_date 2021 e.1 = false) (cells leap_grid)
   ∧ as_time_series leap_grid = Raise ValueError)
  ∧ (df_index march_grid = seqZ 1 31 ∧ df_columns march_grid = MONTHS
     ∧ Forall (λ e, is_Some e.2 → calendar_date 2021 e.1 = true) (cells march_grid)
     ∧ ∃ ts, as_time_series march_grid = Ok ts
             ∧ Forall (λ t, ts_year t = 2021
                            ∧ valid_date 2021 (ts_month t) (ts_day t)) (ts.*1)).
Proof.
  assert (H1 : df_index leap_grid = seqZ 1 31) by reflexivity.
  assert (H2 : df_columns leap_grid = MONTHS) by reflexivity.
  assert (H3 : Exists (λ e, is_Some e.2 ∧ calendar_date 2021 e.1 = false)
                 (cells leap_grid)).
  { apply (bool_decide_unpack _). vm_compute. exact I. }
  assert (H4 : df_index march_grid = seqZ 1 31) by reflexivity.
  assert (H5 : df_columns march_grid = MONTHS) by reflexivity.
  assert (H6 : Forall (λ e, is_Some e.2 → calendar_date 2021 e.1 = true)
                 (cells march_grid)).
  { apply (bool_decide_unpack _). vm_compute. exact I. }
  split.
  - split; [exact H1|]. split; [exact H2|]. split; [exact H3|].
    exact (proj1 (as_time_series_invalid_date leap_grid H1 H2) H3).
  - split; [exact H4|]. split; [exact H5|]. split; [exact H6|].
    exact (proj2 (as_time_series_invalid_date march_grid H4 H5) H6).
Defined.

(** ** [load_data] *)

Example load_data_33_rows :
  load_data (csv_table 33)
  = Ok {| df_index := seqZ 1 31;
          df_columns := ["January"; "February"; "March"]%string;
          df_data := replicate 31 [Some 30; None; Some 60] |}.
Proof. vm_compute. reflexivity. Qed.

Example load_data_2_rows : load_data (csv_table 2) = Raise ValueError.
Proof. vm_compute. reflexivity. Qed.

Lemma filter_ext_in {A} (P Q : A → Prop)
    `{!∀ x, Decision (P x), !∀ x, Decision (Q x)} (l : list A) :
  (∀ x, x ∈ l → (P x ↔ Q x)) → filter P l = filter Q l.
Proof.
  induction l as [|x l IH]; intros HPQ; [done|].
  rewrite !filter_cons, IH by (intros y Hy; apply HPQ; by right).
  destruct (decide (P x)) as [HP|HP], (decide (Q x)) as [HQ|HQ]; try done.
  - destruct HQ. apply HPQ; [left|done].
  - destruct HP. apply HPQ; [left|done].
Qed.

Lemma select_keep (labels : list string) (cols : list string) :
  select ((λ c, bool_decide (c ∉ labels)) <$> cols) cols
  = filter (λ c, c ∉ labels) cols.
Proof.
  induction cols as [|c cols IH]; [done|]. csimpl. rewrite filter_cons, IH.
  case_bool_decide; case_decide; done.
Qed.

(** The columns left by the drop are the ones whose label does not start
    with "Unnamed:", in their order. *)
Lemma drop_columns_unnamed raw :
  df_columns (drop_columns (unnamed_columns raw) raw) = named_columns raw.
Proof.
  unfold drop_columns, unnamed_columns, named_columns. simpl.
  rewrite select_keep. apply filter_ext_in. intros c Hc.
  rewrite list_elem_of_filter. split.
  - intros Hn Hp. apply Hn. by split.
  - intros Hn [Hp _]. by apply Hn.
Qed.

Lemma dict_list_to_map (pairs : list (string * string)) :
  NoDup (pairs.*1) → dict pairs = list_to_map pairs.
Proof.
  unfold dict.
  assert (H : ∀ (m : gmap string string),
    NoDup (pairs.*1) →
    foldl (λ m kv, <[kv.1 := kv.2]> m) m pairs = list_to_map pairs ∪ m).
  { induction pairs as [|[k v] pairs IH]; intros m Hnd.
    - cbn [foldl]. rewrite list_to_map_nil. by rewrite (left_id_L ∅ (∪)).
    - rewrite fmap_cons in Hnd. apply NoDup_cons in Hnd as [Hk Hnd].
      cbn [foldl fst snd]. rewrite IH by done.
      rewrite list_to_map_cons, <-insert_union_l. symmetry.
      apply insert_union_r. by apply not_elem_of_list_to_map_1. }
  intros Hnd. rewrite H by done. by rewrite (right_id_L ∅ (∪)).
Qed.

Lemma zip_labels_sublist {A B} (ks : list A) (vs : list B) :
  (zip ks vs).*1 `sublist_of` ks.
Proof.
  revert vs. induction ks as [|k ks IH]; intros [|v vs]; csimpl;
    try apply sublist_nil_l.
  apply sublist_skip, IH.
Qed.

(** Renaming through the dictionary of the zip is positional when the labels
    are distinct: the first labels take the new names, as many as there are,
    and the labels beyond the new names stay. *)
Lemma rename_zip (ks vs : list string) :
  NoDup ks →
  (λ c, default c (dict (zip ks vs) !! c)) <$> ks
  = take (length ks) vs ++ drop (length vs) ks.
Proof.
  intros Hnd. rewrite dict_list_to_map
    by (eapply sublist_NoDup; [exact Hnd|apply zip_labels_sublist]).
  revert vs. induction Hnd as [|k ks Hk Hnd IH]; intros vs; [by destruct vs|].
  destruct vs as [|v vs]; csimpl.
  - f_equal. rewrite <-(list_fmap_id ks) at 2. apply list_fmap_ext.
    intros i c _. by rewrite lookup_empty.
  - rewrite lookup_insert_eq. csimpl. f_equal. rewrite <-IH.
    apply list_fmap_ext. intros i c Hc.
    rewrite lookup_insert_ne; [done|].
    intros ->. apply Hk. by eapply list_elem_of_lookup_2.
Qed.

Lemma load_data_Ok raw :
  (31 ≤ length (df_index raw))%nat →
  load_data raw
  = Ok (rename (dict (zip (named_columns raw) MONTHS))
          {| df_index := seqZ 1 31;
             df_columns := named_columns raw;
             df_data := take 31 (df_data (drop_columns (unnamed_columns raw) raw)) |}).
Proof.
  intros Hrows. unfold load_data. fold (unnamed_columns raw).
  unfold set_index.
  rewrite decide_True
    by (cbn [iloc_to drop_columns df_index]; rewrite length_take, length_seqZ; lia).
  cbn [mbind result_bind iloc_to df_columns df_index df_data].
  by rewrite !drop_columns_unnamed.
Qed.

Lemma load_data_Raise raw :
  (length (df_index raw) < 31)%nat → load_data raw = Raise ValueError.
Proof.
  intros Hrows. unfold load_data, set_index.
  rewrite decide_False; [done|].
  cbn [iloc_to drop_columns df_index]. rewrite length_take, length_seqZ. lia.
Qed.

(** C7, as stated, fails: a well-formed table of 2 rows is not loaded as a
    table of 2 rows, [load_data] raises ValueError. *)
Lemma load_data_short_table_raises :
  wf_DataFrame (csv_table 2)
  ∧ length (df_data (csv_table 2)) = 2%nat
  ∧ load_data (csv_table 2) = Raise ValueError.
Proof.
  split; [|split].
  - split; [reflexivity|]. repeat constructor.
  - reflexivity.
  - vm_compute. reflexivity.
Qed.

(** C7, as the code has it: from a table of at least 31 rows [load_data]
    keeps the first 31 rows and labels them 1..31; from a table of fewer
    than 31 rows it raises ValueError, the 31 labels do not fit. *)
Theorem load_data_rows raw :
  wf_DataFrame raw →
  ((31 ≤ length (df_index raw))%nat →
   ∃ df, load_data raw = Ok df
         ∧ df_index df = seqZ 1 31
         ∧ df_data df = take 31 (df_data (drop_columns (unnamed_columns raw) raw))
         ∧ length (df_data df) = 31%nat)
  ∧ ((length (df_index raw) < 31)%nat → load_data raw = Raise ValueError).
Proof.
  intros [Hlen _]. split; [|apply load_data_Raise].
  intros Hrows. eexists. split; [by apply load_data_Ok|].
  cbn [rename df_index df_data drop_columns]. split; [done|]. split; [done|].
  rewrite length_take, length_fmap. lia.
Qed.

Lemma load_data_rows_witness :
  (wf_DataFrame (csv_table 33) ∧ (31 ≤ length (df_index (csv_table 33)))%nat
   ∧ ∃ df, load_data (csv_table 33) = Ok df
           ∧ df_index df = seqZ 1 31
           ∧ df_data df
             = take 31 (df_data (drop_columns (unnamed_columns (csv_table 33))
                                   (csv_table 33)))
           ∧ length (df_data df) = 31%nat)
  ∧ (wf_DataFrame (csv_table 2) ∧ (length (df_index (csv_table 2)) < 31)%nat
     ∧ load_data (csv_table 2) = Raise ValueError).
Proof.
  assert (H1 : wf_DataFrame (csv_table 33)).
  { split; [reflexivity|]. repeat constructor. }
  assert (H2 : (31 ≤ length (df_index (csv_table 33)))%nat).
  { vm_compute. lia. }
  assert (H3 : wf_DataFrame (csv_table 2)).
  { split; [reflexivity|]. repeat constructor. }
  assert (H4 : (length (df_index (csv_table 2)) < 31)%nat).
  { vm_compute. lia. }
  split.
  - split; [exact H1|]. split; [exact H2|].
    exact (proj1 (load_data_rows (csv_table 33) H1) H2).
  - split; [exact H3|]. split; [exact H4|].
    exact (proj2 (load_data_rows (csv_table 2) H3) H4).
Defined.

(** C8: [load_data] drops the columns whose label starts with "Unnamed:"
    before it renames; when the labels of the table are distinct, the
    columns left take the month names by position, as many as there are
    columns, and columns beyond the twelfth keep their label.  Fewer than 12
    columns raise nothing: the result has the first month names only. *)
Theorem load_data_columns raw :
  NoDup (df_columns raw) →
  (31 ≤ length (df_index raw))%nat →
  ∃ df, load_data raw = Ok df
        ∧ df_columns (drop_columns (unnamed_columns raw) raw) = named_columns raw
        ∧ df_columns df
          = take (length (named_columns raw)) MONTHS ++ drop 12 (named_columns raw)
        ∧ ((length (named_columns raw) ≤ 12)%nat →
           df_columns df = take (length (named_columns raw)) MONTHS).
Proof.
  intros Hnd Hrows. eexists. split; [by apply load_data_Ok|].
  split; [apply drop_columns_unnamed|].
  cbn [rename df_columns].
  assert (Hnamed : NoDup (named_columns raw)).
  { eapply sublist_NoDup; [exact Hnd|apply sublist_filter]. }
  rewrite (rename_zip _ MONTHS Hnamed). split; [done|].
  intros Hle. rewrite drop_ge by (simpl; lia). by rewrite app_nil_r.
Qed.

Lemma load_data_columns_witness :
  NoDup (df_columns (csv_table 33))
  ∧ (31 ≤ length (df_index (csv_table 33)))%nat
  ∧ ∃ df, load_data (csv_table 33) = Ok df
          ∧ df_columns (drop_columns (unnamed_columns (csv_table 33)) (csv_table 33))
            = named_columns (csv_table 33)
          ∧ df_columns df
            = take (length (named_columns (csv_table 33))) MONTHS
              ++ drop 12 (named_columns (csv_table 33))
          ∧ ((length (named_columns (csv_table 33)) ≤ 12)%nat →
             df_columns df = take (length (named_columns (csv_table 33))) MONTHS).
Proof.
  assert (H1 : NoDup (df_columns (csv_table 33))).
  { apply (bool_decide_unpack _). vm_compute. exact I. }
  assert (H2 : (31 ≤ length (df_index (csv_table 33)))%nat).
  { vm_compute. lia. }
  split; [exact H1|]. split; [exact H2|].
  exact (load_data_columns (csv_table 33) H1 H2).
Defined.

Example named_columns_csv_table :
  named_columns (csv_table 33) = ["Jan"; "Feb"; "Mar"]%string.
Proof. vm_compute. reflexivity. Qed.

(** ** [as_time_series] on the object store *)

Lemma as_time_series_run_eq (h : gmap Store.loc Store.object) df g :
  h !! df = Some (Store.DataFrameObj g) →
  Store.as_time_series df h
  = match mapM (λ day_month, to_datetime day_month 2021) ((stack g).*1) with
    | Ok index =>
        let stacked := fresh (dom h) in
        let h' := <[stacked := Store.SeriesObj (zip index ((stack g).*2))]> h in
        Ok (fresh (dom h'),
            <[fresh (dom h') := Store.SeriesObj (sort_index (zip index ((stack g).*2)))]> h')
    | Raise e => Raise e
    end.
Proof.
  intros Hdf.
  unfold Store.as_time_series, Store.read_DataFrame, Store.read_Stacked,
    Store.read_Series, Store.bind, Store.read, Store.ret, Store.alloc,
    Store.write, Store.lift.
  rewrite Hdf. cbv beta iota. rewrite lookup_insert_eq. cbv beta iota.
  destruct (mapM _ _) as [index|e]; [|done].
  cbv beta iota zeta. rewrite lookup_insert_eq. cbv beta iota.
  by rewrite insert_insert_eq.
Qed.

Lemma as_time_series_run (h : gmap Store.loc Store.object) df g :
  h !! df = Some (Store.DataFrameObj g) →
  match as_time_series g with
  | Ok ts =>
      ∃ stacked sorted s,
        h !! stacked = None ∧ h !! sorted = None ∧ sorted ≠ stacked
        ∧ Store.as_time_series df h
          = Ok (sorted, <[sorted := Store.SeriesObj ts]>
                          (<[stacked := Store.SeriesObj s]> h))
  | Raise e => Store.as_time_series df h = Raise e
  end.
Proof.
  intros Hdf. rewrite (as_time_series_run_eq h df g Hdf).
  unfold as_time_series.
  destruct (mapM _ _) as [index|e]; [|done].
  cbn [mbind result_bind]. cbv zeta.
  set (stacked := fresh (dom h)).
  set (h' := <[stacked := _]> h). set (sorted := fresh (dom h')).
  assert (Hstacked : h !! stacked = None).
  { apply not_elem_of_dom. apply is_fresh. }
  assert (Hsorted : h' !! sorted = None).
  { apply not_elem_of_dom. apply is_fresh. }
  exists stacked, sorted, (zip index (stack g).*2).
  split; [done|]. unfold h' in Hsorted.
  apply lookup_insert_None in Hsorted as [Hsorted Hne]. done.
Qed.

(** C9: [as_time_series] reads its argument and changes no object of the
    store: called on a reference to the grid [g], it raises when the
    function [as_time_series g] raises, and otherwise returns a reference to
    a new object that holds the series [as_time_series g]; every object that
    was in the store is still there, unchanged.  A second call on the same
    reference returns a series equal to the first. *)
Theorem as_time_series_deterministic (h : gmap Store.loc Store.object) df g :
  h !! df = Some (Store.DataFrameObj g) →
  match Store.as_time_series df h with
  | Ok (l1, h1) =>
      ∃ ts, as_time_series g = Ok ts
            ∧ h1 !! l1 = Some (Store.SeriesObj ts)
            ∧ (∀ l o, h !! l = Some o → h1 !! l = Some o)
            ∧ ∃ l2 h2, Store.as_time_series df h1 = Ok (l2, h2)
                       ∧ l2 ≠ l1
                       ∧ h2 !! l2 = Some (Store.SeriesObj ts)
                       ∧ h2 !! l1 = Some (Store.SeriesObj ts)
                       ∧ (∀ l o, h !! l = Some o → h2 !! l = Some o)
  | Raise e => as_time_series g = Raise e
  end.
Proof.
  intros Hdf. pose proof (as_time_series_run h df g Hdf) as Hrun.
  destruct (as_time_series g) as [ts|e] eqn:Hts; [|by rewrite Hrun].
  destruct Hrun as (stacked & sorted & s & Hstacked & Hsorted & Hne & ->).
  set (h1 := <[sorted := _]> _).
  assert (Hframe : ∀ l o, h !! l = Some o → h1 !! l = Some o).
  { intros l o Hl. unfold h1.
    rewrite !lookup_insert_ne; [done|congruence..]. }
  exists ts. split; [done|]. split; [apply lookup_insert_eq|]. split; [done|].
  pose proof (as_time_series_run h1 df g (Hframe _ _ Hdf)) as Hrun.
  rewrite Hts in Hrun.
  destruct Hrun as (stacked' & sorted' & s' & Hstacked' & Hsorted' & Hne' & ->).
  assert (Hl1 : h1 !! sorted = Some (Store.SeriesObj ts)) by apply lookup_insert_eq.
  do 2 eexists. split; [reflexivity|]. split; [congruence|].
  split; [apply lookup_insert_eq|]. split.
  - rewrite !lookup_insert_ne; [done|congruence..].
  - intros l o Hl. pose proof (Hframe _ _ Hl).
    rewrite !lookup_insert_ne; [done|congruence..].
Qed.

Lemma as_time_series_deterministic_witness :
  march_store !! 1%positive = Some (Store.DataFrameObj march_grid)
  ∧ match Store.as_time_series 1%positive march_store with
    | Ok (l1, h1) =>
        ∃ ts, as_time_series march_grid = Ok ts
              ∧ h1 !! l1 = Some (Store.SeriesObj ts)
              ∧ (∀ l o, march_store !! l = Some o → h1 !! l = Some o)
              ∧ ∃ l2 h2, Store.as_time_series 1%positive h1 = Ok (l2, h2)
                         ∧ l2 ≠ l1
                         ∧ h2 !! l2 = Some (Store.SeriesObj ts)
                         ∧ h2 !! l1 = Some (Store.SeriesObj ts)
                         ∧ (∀ l o, march_store !! l = Some o → h2 !! l = Some o)
    | Raise e => as_time_series march_grid = Raise e
    end.
Proof.
  assert (H : march_store !! 1%positive = Some (Store.DataFrameObj march_grid)).
  { vm_compute. reflexivity. }
  split; [exact H|].
  exact (as_time_series_deterministic march_store 1%positive march_grid H).
Defined.


(** * Further properties *)

(** ** [to_datetime] on any labels *)

Lemma split_slash_app_None a b :
  split_slash a = None → split_slash (a +:+ String "/" b) = Some (a, b).
Proof.
  induction a as [|c a IH]; simpl; [done|].
  destruct (Ascii.eqb c "/"); [done|].
  destruct (split_slash a) as [[x y]|]; [done|]. intros _. by rewrite IH.
Qed.

Lemma split_slash_app_Some a b x y :
  split_slash a = Some (x, y) → split_slash (a +:+ b) = Some (x, y +:+ b).
Proof.
  revert x. induction a as [|c a IH]; intros x; simpl; [done|].
  destruct (Ascii.eqb c "/"); [by intros [= <- <-]|].
  destruct (split_slash a) as [[x' y']|]; [|done].
  intros [= <- <-]. by rewrite (IH x').
Qed.

Lemma pretty_N_go_no_slash x s :
  split_slash s = None → split_slash (pretty_N_go x s) = None.
Proof.
  revert s. induction (N.lt_wf_0 x) as [x _ IH]; intros s Hs.
  assert (x = 0 ∨ 0 < x)%N as [->|Hx] by lia; [by rewrite pretty_N_go_0|].
  rewrite pretty_N_go_step by done. apply IH; [by apply N.div_lt|].
  simpl. rewrite Hs. unfold pretty_N_char. by repeat case_match.
Qed.

Lemma pretty_Z_no_slash (d : Z) : split_slash (pretty d) = None.
Proof.
  assert (Hpos : ∀ p : positive, split_slash (pretty p) = None).
  { intros p. unfold pretty, pretty_positive, pretty, pretty_N.
    case_decide; [done|]. by apply pretty_N_go_no_slash. }
  destruct d as [|p|p]; unfold pretty at 1, pretty_Z; [done|apply Hpos|].
  change (split_slash ("-" +:+ pretty p))
    with (match split_slash (pretty p) with
          | Some (a, b) => Some (String "-" a, b)
          | None => None
          end).
  by rewrite Hpos.
Qed.

Lemma pretty_N_go_length x s :
  (String.length s ≤ String.length (pretty_N_go x s))%nat.
Proof.
  revert s. induction (N.lt_wf_0 x) as [x _ IH]; intros s.
  assert (x = 0 ∨ 0 < x)%N as [->|Hx] by lia; [by rewrite pretty_N_go_0|].
  rewrite pretty_N_go_step by done.
  etrans; [|apply IH; by apply N.div_lt]. simpl. lia.
Qed.

Lemma match_d_length s d : match_d s = Some d → (String.length s ≤ 2)%nat.
Proof. destruct s as [|a [|b [|c s]]]; simpl; (done || lia). Qed.

Lemma pretty_Z_length_3 (d : Z) : 100 ≤ d → (3 ≤ String.length (pretty d))%nat.
Proof.
  intros Hd. destruct d as [|p|p]; try lia.
  unfold pretty, pretty_Z, pretty, pretty_positive, pretty, pretty_N.
  case_decide; [done|].
  assert (H10 : (10 ≤ N.pos p `div` 10)%N) by (apply N.div_le_lower_bound; lia).
  rewrite 3!pretty_N_go_step;
    [|try (apply N.div_str_pos_iff; lia); lia..].
  etrans; [|apply pretty_N_go_length]. simpl. lia.
Qed.

Lemma match_d_pretty (d : Z) :
  match_d (pretty d) = if decide (1 ≤ d ≤ 31) then Some d else None.
Proof.
  destruct (decide (1 ≤ d ≤ 99)) as [Hd|Hd].
  - assert (H : Forall (λ d : Z, match_d (pretty d)
                          = if decide (1 ≤ d ≤ 31) then Some d else None)
                  (seqZ 1 99)).
    { apply (bool_decide_unpack _). vm_compute. exact I. }
    rewrite Forall_forall in H. apply H. apply elem_of_seqZ. lia.
  - rewrite decide_False by lia.
    destruct (decide (100 ≤ d)) as [Hbig|Hsmall].
    + destruct (match_d (pretty d)) as [d'|] eqn:Hm; [|done].
      apply match_d_length in Hm. apply pretty_Z_length_3 in Hbig. lia.
    + destruct d as [|p|p]; [done|lia|].
      unfold pretty at 1, pretty_Z.
      change ("-" +:+ pretty p) with (String "-" (pretty p)).
      by destruct (pretty p) as [|b [|c r]].
Qed.

Lemma match_Y_length s y : match_Y s = Some y → String.length s = 4%nat.
Proof. by destruct s as [|a [|b [|c [|d [|e s]]]]]. Qed.

Lemma length_append a b :
  String.length (a +:+ b) = (String.length a + String.length b)%nat.
Proof. induction a as [|c a IH]; simpl; [done|]. by rewrite IH. Qed.

Lemma ascii_lower_slash c : Ascii.eqb (ascii_lower c) "/" = Ascii.eqb c "/".
Proof. by destruct c as [[] [] [] [] [] [] [] []]. Qed.

Lemma split_slash_lower m : split_slash (lower m) = None → split_slash m = None.
Proof.
  induction m as [|c m IH]; simpl; [done|].
  rewrite ascii_lower_slash. destruct (Ascii.eqb c "/"); [done|].
  destruct (split_slash (lower m)) as [[x y]|]; [done|].
  intros _. by rewrite IH.
Qed.

Lemma match_B_Some m k :
  match_B m = Some k → 1 ≤ k ≤ 12 ∧ split_slash m = None.
Proof.
  unfold match_B. intros [Hk Hm]%index_from_Some. split; [simpl in Hk; lia|].
  apply split_slash_lower.
  assert (H : Forall (λ s, split_slash s = None) (lower <$> MONTHS)).
  { apply (bool_decide_unpack _). vm_compute. exact I. }
  rewrite Forall_forall in H. apply H. by eapply list_elem_of_lookup_2.
Qed.

Lemma days_in_month_bounds y m : 28 ≤ days_in_month y m ≤ 31.
Proof. unfold days_in_month. repeat case_match; lia. Qed.

Lemma to_datetime_spec (d : Z) (m : string) :
  to_datetime (d, m) 2021
  = match match_B m with
    | Some k => if decide (1 ≤ d ≤ days_in_month 2021 k)
                then Ok (mkTimestamp 2021 k d)
                else Raise ValueError
    | None => Raise ValueError
    end.
Proof.
  unfold to_datetime, strptime_dBY.
  change (pretty d +:+ "/" +:+ m +:+ "/" +:+ pretty 2021)
    with (pretty d +:+ String "/" (m +:+ String "/" (pretty 2021))).
  rewrite (split_slash_app_None _ _ (pretty_Z_no_slash d)).
  cbn [or_raise mbind result_bind].
  destruct (split_slash m) as [[x y]|] eqn:Hm.
  - rewrite (split_slash_app_Some _ _ _ _ Hm). cbn [or_raise mbind result_bind].
    assert (HB : match_B m = None).
    { destruct (match_B m) as [k|] eqn:HB; [|done].
      apply match_B_Some in HB as [_ HB]. congruence. }
    rewrite HB.
    destruct (match_d (pretty d)); cbn [or_raise mbind result_bind]; [|done].
    destruct (match_B x); cbn [or_raise mbind result_bind]; [|done].
    destruct (match_Y _) as [y'|] eqn:HY; [|done].
    apply match_Y_length in HY. rewrite length_append in HY. simpl in HY. lia.
  - rewrite (split_slash_app_None _ _ Hm). cbn [or_raise mbind result_bind].
    rewrite match_d_pretty.
    destruct (match_B m) as [k|] eqn:HB.
    + pose proof (days_in_month_bounds 2021 k).
      destruct (decide (1 ≤ d ≤ 31)); cbn [or_raise mbind result_bind].
      * change (match_Y (pretty 2021)) with (Some 2021).
        cbn [or_raise mbind result_bind].
        destruct (Z.leb_spec d (days_in_month 2021 k)).
        -- by rewrite decide_True by lia.
        -- by rewrite decide_False by lia.
      * by rewrite decide_False by lia.
    + by destruct (decide (1 ≤ d ≤ 31)).
Qed.

Lemma to_datetime_Ok d m t :
  to_datetime (d, m) 2021 = Ok t ↔
  ∃ k, match_B m = Some k ∧ 1 ≤ d ≤ days_in_month 2021 k
       ∧ t = mkTimestamp 2021 k d.
Proof.
  rewrite to_datetime_spec. destruct (match_B m) as [k|].
  - case_decide as Hd.
    + split; [intros [= <-]; by exists k|]. by intros (k2 & [= <-] & _ & ->).
    + split; [done|]. by intros (k2 & [= <-] & Hd2 & _).
  - split; [done|]. by intros (k & Hk & _).
Qed.

Lemma to_datetime_date_label day_month :
  (∃ t, to_datetime day_month 2021 = Ok t) ↔ date_label 2021 day_month = true.
Proof.
  destruct day_month as [d m]. unfold date_label. cbn [fst snd]. split.
  - intros [t (k & -> & Hd & _)%to_datetime_Ok]. by apply bool_decide_eq_true.
  - destruct (match_B m) as [k|] eqn:Hk; [|done].
    intros Hd%bool_decide_eq_true. eexists. apply to_datetime_Ok. by exists k.
Qed.

Lemma to_datetime_not_date_label day_month :
  to_datetime day_month 2021 = Raise ValueError ↔ date_label 2021 day_month = false.
Proof.
  destruct (to_datetime day_month 2021) as [t|e] eqn:Ht.
  - split; [done|]. intros Hf.
    assert (date_label 2021 day_month = true); [|congruence].
    apply to_datetime_date_label. by exists t.
  - apply to_datetime_Raise in Ht as Heq. subst e. split; [|done]. intros _.
    destruct (date_label 2021 day_month) eqn:Hl; [|done].
    apply to_datetime_date_label in Hl as [t Ht2]. congruence.
Qed.

Lemma ascii_lower_idemp c : ascii_lower (ascii_lower c) = ascii_lower c.
Proof. by destruct c as [[] [] [] [] [] [] [] []]. Qed.

Lemma lower_idemp m : lower (lower m) = lower m.
Proof.
  induction m as [|c m IH]; simpl; [done|]. by rewrite ascii_lower_idemp, IH.
Qed.

(** X1: All of [to_datetime] for the year 2021, on any integer day label and any
    column label: the result is a date exactly when the column label is a
    month name, in any letter case, and the day is a day of that month of
    2021; the date then has that month and that day.  Every other label pair
    raises ValueError, and no other exception occurs. *)
Theorem to_datetime_outcome (d : Z) (m : string) :
  (∀ t, to_datetime (d, m) 2021 = Ok t
        ↔ ∃ k, match_B m = Some k ∧ 1 ≤ k ≤ 12
               ∧ 1 ≤ d ≤ days_in_month 2021 k
               ∧ t = mkTimestamp 2021 k d)
  ∧ (∀ e, to_datetime (d, m) 2021 = Raise e
          ↔ e = ValueError ∧ date_label 2021 (d, m) = false)
  ∧ to_datetime (d, lower m) 2021 = to_datetime (d, m) 2021.
Proof.
  split; [|split].
  - intros t. rewrite to_datetime_Ok. split.
    + intros (k & Hk & Hd & ->). exists k. split; [done|].
      split; [by apply match_B_Some in Hk as [? _]|done].
    + intros (k & Hk & _ & Hd & ->). by exists k.
  - intros e. split.
    + intros He. apply to_datetime_Raise in He as Heq. subst e.
      split; [done|]. by apply to_datetime_not_date_label.
    + intros [-> Hl]. by apply to_datetime_not_date_label.
  - rewrite !to_datetime_spec. unfold match_B. by rewrite lower_idemp.
Qed.

(** ** [as_time_series] on any table *)

(** X2: The dates of a returned series are dates of the calendar of 2021,
    whatever the row and column labels of the table. *)
Theorem as_time_series_valid_dates df ts :
  as_time_series df = Ok ts →
  Forall (λ e, ts_year e.1 = 2021 ∧ valid_date 2021 (ts_month e.1) (ts_day e.1)) ts.
Proof.
  intros Hts. destruct (as_time_series_labels _ _ Hts) as (index & Hindex & Hperm).
  apply Forall_fmap with (f := fst)
    (P := λ t, ts_year t = 2021 ∧ valid_date 2021 (ts_month t) (ts_day t)).
  rewrite Hperm. apply Forall_forall. intros t Ht.
  apply list_elem_of_lookup in Ht as [j Hj].
  destruct (Forall2_lookup_r _ _ _ _ _ Hindex Hj) as ([d m] & _ & Hp).
  cbv beta in Hp. apply to_datetime_Ok in Hp as (k & Hk & Hd & ->).
  apply match_B_Some in Hk as [Hk _]. split; [done|]. unfold valid_date. simpl. lia.
Qed.

Lemma as_time_series_valid_dates_witness :
  as_time_series march_grid = Ok march_series
  ∧ Forall (λ e, ts_year e.1 = 2021
                 ∧ valid_date 2021 (ts_month e.1) (ts_day e.1)) march_series.
Proof.
  assert (H : as_time_series march_grid = Ok march_series).
  { vm_compute. reflexivity. }
  split; [exact H|]. exact (as_time_series_valid_dates march_grid march_series H).
Defined.

(** X3: [as_time_series] raises exactly when some present cell has labels that
    are no date of 2021, and then it raises ValueError. *)
Theorem as_time_series_raises_iff df :
  (as_time_series df = Raise ValueError
   ↔ Exists (λ e, is_Some e.2 ∧ date_label 2021 e.1 = false) (cells df))
  ∧ ((∃ ts, as_time_series df = Ok ts)
     ↔ Forall (λ e, is_Some e.2 → date_label 2021 e.1 = true) (cells df)).
Proof.
  assert (Hraise : as_time_series df = Raise ValueError
    ↔ Exists (λ e, is_Some e.2 ∧ date_label 2021 e.1 = false) (cells df)).
  { split.
    - unfold as_time_series.
      destruct (mapM _ _) as [index|e] eqn:Hm; [done|]. intros _.
      apply mapM_Raise_elem in Hm as (p & Hp & Hraise).
      apply to_datetime_Raise in Hraise as He. subst e.
      apply list_elem_of_fmap in Hp as ([p2 v] & -> & Hin).
      unfold stack in Hin. apply list_elem_of_filter in Hin as [Hv Hin].
      apply Exists_exists. exists (p2, v). split; [done|]. split; [done|].
      by apply to_datetime_not_date_label.
    - intros ([p v] & Hin & Hv & Hl)%Exists_exists. cbn [fst snd] in *.
      apply to_datetime_not_date_label in Hl.
      assert (Hp : p ∈ (stack df).*1).
      { apply list_elem_of_fmap. exists (p, v). split; [done|].
        unfold stack. by apply list_elem_of_filter. }
      destruct (as_time_series df) as [ts|e] eqn:Hts.
      + apply as_time_series_Ok in Hts as (index & Hm & _).
        destruct (mapM_elem_Raise (λ day_month, to_datetime day_month 2021)
                    _ _ _ Hp Hl) as [e2 He2].
        congruence.
      + f_equal. by eapply as_time_series_Raise. }
  split; [done|]. split.
  - intros [ts Hts]. apply Forall_forall. intros e He Hv.
    destruct (date_label 2021 e.1) eqn:Hl; [done|].
    assert (as_time_series df = Raise ValueError); [|congruence].
    apply Hraise, Exists_exists. by exists e.
  - intros Hall. destruct (as_time_series df) as [ts|e] eqn:Hts; [by eexists|].
    apply as_time_series_Raise in Hts as He. subst e.
    destruct Hraise as [Hraise _]. specialize (Hraise eq_refl).
    apply Exists_exists in Hraise as (e & He & Hv & Hl).
    rewrite Forall_forall in Hall. rewrite (Hall e He Hv) in Hl. done.
Qed.

(** X4: The entries of a returned series are the present cells of the table,
    each with the date of its labels: no entry is lost, none is added. *)
Theorem as_time_series_entries df ts :
  as_time_series df = Ok ts →
  length ts = length (filter (λ e, is_Some e.2) (cells df))
  ∧ ∀ t v, (t, v) ∈ ts ↔
           ∃ d m k, ((d, m), v) ∈ cells df ∧ is_Some v
                    ∧ match_B m = Some k ∧ t = mkTimestamp 2021 k d.
Proof.
  intros (index & Hm & ->)%as_time_series_Ok.
  apply mapM_Ok_Forall2 in Hm as Hindex.
  apply mapM_Ok_length in Hm as Hlen. rewrite length_fmap in Hlen.
  split.
  { rewrite sort_index_Permutation, length_zip, Hlen, length_fmap.
    fold (stack df). lia. }
  intros t v. rewrite sort_index_Permutation.
  rewrite (elem_of_lookup_zip_with pair). split.
  - intros (i & t2 & v2 & [= -> ->] & Ht & Hv).
    destruct (Forall2_lookup_r _ _ _ _ _ Hindex Ht) as ([d m] & Hp & Hdate).
    cbv beta in Hdate. apply to_datetime_Ok in Hdate as (k & Hk & _ & ->).
    rewrite list_lookup_fmap in Hp. rewrite list_lookup_fmap in Hv.
    destruct (stack df !! i) as [[p v3]|] eqn:Hi; [|done].
    simpl in Hp, Hv. injection Hp as ->. injection Hv as ->.
    apply list_elem_of_lookup_2 in Hi. unfold stack in Hi.
    apply list_elem_of_filter in Hi as [Hv Hin]. by exists d, m, k.
  - intros (d & m & k & Hin & Hv & Hk & ->).
    assert (Hs : ((d, m), v) ∈ stack df).
    { unfold stack. by apply list_elem_of_filter. }
    apply list_elem_of_lookup in Hs as [i Hi].
    assert (Hp : (stack df).*1 !! i = Some (d, m)).
    { by rewrite list_lookup_fmap, Hi. }
    destruct (Forall2_lookup_l _ _ _ _ _ Hindex Hp) as (t & Ht & Hdate).
    cbv beta in Hdate. apply to_datetime_Ok in Hdate as (k2 & Hk2 & _ & ->).
    assert (k2 = k) as -> by congruence.
    exists i, (mkTimestamp 2021 k d), v. split; [done|]. split; [done|].
    by rewrite list_lookup_fmap, Hi.
Qed.

Lemma as_time_series_entries_witness :
  as_time_series march_grid = Ok march_series
  ∧ length march_series = length (filter (λ e, is_Some e.2) (cells march_grid))
  ∧ ∀ t v, (t, v) ∈ march_series ↔
           ∃ d m k, ((d, m), v) ∈ cells march_grid ∧ is_Some v
                    ∧ match_B m = Some k ∧ t = mkTimestamp 2021 k d.
Proof.
  assert (H : as_time_series march_grid = Ok march_series).
  { vm_compute. reflexivity. }
  split; [exact H|]. exact (as_time_series_entries march_grid march_series H).
Defined.

Lemma NoDup_fmap_elem_inj {A B} (f : A → B) (l : list A) x y :
  NoDup (f <$> l) → x ∈ l → y ∈ l → f x = f y → x = y.
Proof.
  intros Hnd [i Hi]%list_elem_of_lookup [j Hj]%list_elem_of_lookup Hxy.
  assert (i = j) as ->; [|congruence].
  apply (NoDup_lookup (f <$> l) i j (f x)); [done|..].
  - by rewrite list_lookup_fmap, Hi.
  - by rewrite list_lookup_fmap, Hj, Hxy.
Qed.

Lemma match_B_inj m n k :
  match_B m = Some k → match_B n = Some k → lower m = lower n.
Proof.
  unfold match_B. intros [_ Hm]%index_from_Some [_ Hn]%index_from_Some.
  congruence.
Qed.

(** X5: A table with distinct row labels and column labels that differ beyond
    letter case gives a series in strictly ascending date order, so with no
    date twice. *)
Theorem as_time_series_sorted_distinct df ts :
  NoDup (df_index df) →
  NoDup (lower <$> df_columns df) →
  as_time_series df = Ok ts →
  StronglySorted Timestamp_lt (ts.*1) ∧ NoDup (ts.*1).
Proof.
  intros Hidx Hcols Hts.
  destruct (as_time_series_labels _ _ Hts) as (index & Hindex & Hperm).
  assert (Hnd : NoDup index).
  { eapply Forall2_Ok_NoDup; [exact Hindex| |].
    - intros [d m] [d2 m2] t Hp Hq Hpt Hqt. cbv beta in Hpt, Hqt.
      apply to_datetime_Ok in Hpt as (k & Hk & _ & ->).
      apply to_datetime_Ok in Hqt as (k2 & Hk2 & _ & [= <- <-]).
      f_equal. apply (NoDup_fmap_elem_inj lower (df_columns df)); [done|..].
      + eapply elem_of_sublist in Hp; [|apply stack_labels_sublist].
        by apply elem_of_grid_labels in Hp as [_ ?].
      + eapply elem_of_sublist in Hq; [|apply stack_labels_sublist].
        by apply elem_of_grid_labels in Hq as [_ ?].
      + by eapply match_B_inj.
    - eapply sublist_NoDup; [|apply stack_labels_sublist].
      apply grid_labels_NoDup; [done|]. by eapply NoDup_fmap_1. }
  assert (Hnd2 : NoDup (ts.*1)) by (by rewrite Hperm).
  split; [|done]. apply StronglySorted_le_lt; [|done].
  apply as_time_series_Ok in Hts as (index2 & _ & ->). apply sort_index_sorted.
Qed.

Lemma as_time_series_sorted_distinct_witness :
  NoDup (df_index march_grid)
  ∧ NoDup (lower <$> df_columns march_grid)
  ∧ as_time_series march_grid = Ok march_series
  ∧ StronglySorted Timestamp_lt (march_series.*1) ∧ NoDup (march_series.*1).
Proof.
  assert (H1 : NoDup (df_index march_grid)).
  { apply (bool_decide_unpack _). vm_compute. exact I. }
  assert (H2 : NoDup (lower <$> df_columns march_grid)).
  { apply (bool_decide_unpack _). vm_compute. exact I. }
  assert (H3 : as_time_series march_grid = Ok march_series).
  { vm_compute. reflexivity. }
  split; [exact H1|]. split; [exact H2|]. split; [exact H3|].
  exact (as_time_series_sorted_distinct march_grid march_series H1 H2 H3).
Defined.

(** ** Dropping the empty columns *)

Lemma select_sublist {A} (mask : list bool) (l : list A) :
  select mask l `sublist_of` l.
Proof.
  revert l. induction mask as [|b mask IH]; intros [|x l]; simpl;
    try apply sublist_nil_l.
  destruct b; [apply sublist_skip|apply sublist_cons]; apply IH.
Qed.

Lemma select_length {A B} (mask : list bool) (l : list A) (k : list B) :
  length l = length k → length (select mask l) = length (select mask k).
Proof.
  revert l k. induction mask as [|b mask IH]; intros [|x l] [|y k] Hlen;
    simpl in *; try done.
  destruct b; simpl; rewrite (IH l k); (done || lia).
Qed.

Lemma select_row_entries (mask : list bool) cols i (row : list (option Z)) :
  length mask = length cols →
  (∀ j v, row !! j = Some (Some v) → mask !! j = Some true) →
  filter (λ e, is_Some e.2) (row_entries (select mask cols) i (select mask row))
  = filter (λ e, is_Some e.2) (row_entries cols i row).
Proof.
  unfold row_entries. revert cols row.
  induction mask as [|b mask IH]; intros [|c cols] [|v row] Hlen Hmask;
    simpl in *; try done.
  - by destruct b, (select mask cols).
  - assert (IH2 : filter (λ e, is_Some e.2)
             (zip_with (λ c v, (i, c, v)) (select mask cols) (select mask row))
           = filter (λ e, is_Some e.2) (zip_with (λ c v, (i, c, v)) cols row)).
    { apply IH; [lia|]. intros j x Hj. apply (Hmask (S j) x Hj). }
    destruct b; simpl.
    + rewrite !filter_cons. by rewrite IH2.
    + rewrite filter_cons_False; [done|]. simpl. intros [x ->].
      by specialize (Hmask 0%nat x eq_refl).
Qed.

Lemma dropna_keep_present df row j v :
  Forall (λ row, length row = length (df_columns df)) (df_data df) →
  row ∈ df_data df → row !! j = Some (Some v) →
  imap (λ j _, bool_decide (Exists is_Some (column_cells j df))) (df_columns df) !! j
  = Some true.
Proof.
  intros Hrows Hrow Hj. rewrite list_lookup_imap.
  rewrite Forall_forall in Hrows. specialize (Hrows row Hrow).
  destruct (df_columns df !! j) as [c|] eqn:Hc.
  - simpl. f_equal. apply bool_decide_eq_true. apply Exists_exists.
    exists (Some v). split; [|by eexists]. unfold column_cells.
    apply list_elem_of_fmap. exists row. by rewrite Hj.
  - apply lookup_ge_None in Hc. apply lookup_lt_Some in Hj. lia.
Qed.

Lemma stack_dropna_all_columns df :
  wf_DataFrame df → stack (dropna_all_columns df) = stack df.
Proof.
  intros [_ Hrows]. unfold stack, cells, dropna_all_columns.
  cbn [df_index df_columns df_data].
  set (keep := imap _ (df_columns df)).
  assert (Hkeep : Forall (λ row, ∀ j v, row !! j = Some (Some v) →
                                         keep !! j = Some true) (df_data df)).
  { apply Forall_forall. intros row Hrow j v Hj.
    by eapply dropna_keep_present. }
  assert (Hlen : length keep = length (df_columns df)).
  { unfold keep. by rewrite length_imap. }
  clearbody keep. clear Hrows. revert Hkeep.
  generalize (df_index df) as idx. generalize (df_data df) as data.
  induction data as [|row data IH]; intros [|i idx] Hkeep; try done.
  apply Forall_cons in Hkeep as [Hrow Hkeep]. csimpl.
  rewrite !filter_app. f_equal; [|by apply IH].
  by apply select_row_entries.
Qed.

(** X6: Line 62 does not change the series of line 63: the columns that
    [dropna] removes hold missing cells only, and [stack] drops those
    anyway. *)
Theorem as_time_series_dropna_all_columns df :
  wf_DataFrame df →
  as_time_series (dropna_all_columns df) = as_time_series df.
Proof.
  intros Hwf. unfold as_time_series. by rewrite stack_dropna_all_columns.
Qed.

Lemma as_time_series_dropna_all_columns_witness :
  wf_DataFrame march_grid
  ∧ as_time_series (dropna_all_columns march_grid) = as_time_series march_grid.
Proof.
  assert (H : wf_DataFrame march_grid).
  { split; [reflexivity|]. repeat constructor. }
  split; [exact H|]. exact (as_time_series_dropna_all_columns march_grid H).
Defined.

Example dropna_all_columns_march :
  df_columns (dropna_all_columns march_grid) = ["February"; "March"]%string.
Proof. vm_compute. reflexivity. Qed.

Lemma stack_sum df :
  wf_DataFrame df → sum_present ((stack df).*2) = df_sum_sum df.
Proof.
  intros Hwf. unfold stack.
  by rewrite sum_present_stack, cells_values, df_sum_sum_cells.
Qed.

Lemma dropna_all_columns_wf df :
  wf_DataFrame df → wf_DataFrame (dropna_all_columns df).
Proof.
  intros [Hlen Hrows]. split; cbn [dropna_all_columns df_data df_index df_columns].
  - by rewrite length_fmap.
  - apply Forall_fmap, Forall_forall. intros row Hrow.
    rewrite Forall_forall in Hrows. simpl. by apply select_length, Hrows.
Qed.

(** X7: What [dropna(how="all", axis=1)] keeps: the table stays rectangular, the
    columns left are columns of the table in their order, each of them has a
    present cell, and the total of the table is unchanged. *)
Theorem dropna_all_columns_spec df :
  wf_DataFrame df →
  wf_DataFrame (dropna_all_columns df)
  ∧ df_index (dropna_all_columns df) = df_index df
  ∧ df_columns (dropna_all_columns df) `sublist_of` df_columns df
  ∧ df_sum_sum (dropna_all_columns df) = df_sum_sum df.
Proof.
  intros Hwf. split; [by apply dropna_all_columns_wf|]. split; [done|]. split.
  - apply select_sublist.
  - rewrite <-!stack_sum by auto using dropna_all_columns_wf.
    by rewrite stack_dropna_all_columns.
Qed.

Lemma dropna_all_columns_spec_witness :
  wf_DataFrame march_grid
  ∧ wf_DataFrame (dropna_all_columns march_grid)
  ∧ df_index (dropna_all_columns march_grid) = df_index march_grid
  ∧ df_columns (dropna_all_columns march_grid) `sublist_of` df_columns march_grid
  ∧ df_sum_sum (dropna_all_columns march_grid) = df_sum_sum march_grid.
Proof.
  assert (H : wf_DataFrame march_grid).
  { split; [reflexivity|]. repeat constructor. }
  split; [exact H|]. exact (dropna_all_columns_spec march_grid H).
Defined.

(** ** Totals by row and by column *)

Lemma df_sum_axis1_rows idx (data : list (list (option Z))) :
  length data = length idx →
  sum_present ((zip_with (λ (i : Z) row, (i, Some (sum_present row))) idx data).*2)
  = sum_present (concat data).
Proof.
  revert idx. induction data as [|row data IH]; intros [|i idx] Hlen;
    simpl in *; try done.
  rewrite sum_present_app. f_equal. apply IH. lia.
Qed.

Lemma imap_labels {A B} (g : nat → A → B) (l : list A) :
  (imap (λ j c, (c, g j c)) l).*1 = l.
Proof.
  revert g. induction l as [|c l IH]; intros g; [done|].
  csimpl. f_equal. exact (IH (λ j, g (S j))).
Qed.

(** X8: The totals per day of the month (line 98) and the totals per month
    (line 78) add up to the same number, the total of line 74; there is one
    total per row and one per column. *)
Theorem df_sum_axis1_total df :
  wf_DataFrame df →
  series_sum (df_sum_axis1 df) = df_sum_sum df
  ∧ (df_sum_axis1 df).*1 = df_index df
  ∧ (df_sum df).*1 = df_columns df.
Proof.
  intros Hwf. split; [|split].
  - rewrite df_sum_sum_cells by done. destruct Hwf as [Hlen _].
    by apply df_sum_axis1_rows.
  - destruct Hwf as [Hlen _]. unfold df_sum_axis1. revert Hlen.
    generalize (df_data df) as data.
    induction (df_index df) as [|i idx IH]; intros [|row data] Hlen;
      simpl in *; try done.
    f_equal. apply IH. lia.
  - unfold df_sum. apply imap_labels.
Qed.

Lemma df_sum_axis1_total_witness :
  wf_DataFrame march_grid
  ∧ series_sum (df_sum_axis1 march_grid) = df_sum_sum march_grid
  ∧ (df_sum_axis1 march_grid).*1 = df_index march_grid
  ∧ (df_sum march_grid).*1 = df_columns march_grid.
Proof.
  assert (H : wf_DataFrame march_grid).
  { split; [reflexivity|]. repeat constructor. }
  split; [exact H|]. exact (df_sum_axis1_total march_grid H).
Defined.

(** ** The smallest and the largest value of a series *)

Lemma argmin_from_Some {I} (s : Series I) i0 v0 :
  ∃ i v, argmin_from (Some (i0, v0)) s = Some (i, v)
    ∧ (((i, v) = (i0, v0) ∧ Forall (λ e, ∀ x, e.2 = Some x → v0 ≤ x) s)
       ∨ (∃ l1 l2, s = l1 ++ (i, Some v) :: l2 ∧ v < v0
                   ∧ Forall (λ e, ∀ x, e.2 = Some x → v < x) l1
                   ∧ Forall (λ e, ∀ x, e.2 = Some x → v ≤ x) l2)).
Proof.
  revert i0 v0. induction s as [|[j [x|]] s IH]; intros i0 v0.
  - exists i0, v0. split; [done|]. left. by split.
  - simpl. destruct (Z.ltb_spec x v0) as [Hlt|Hge].
    + destruct (IH j x) as (i & v & -> & [[[= -> ->] Hall]|Hright]).
      * exists j, x. split; [done|]. right. exists [], s. by repeat split.
      * destruct Hright as (l1 & l2 & -> & Hv & Hl1 & Hl2).
        exists i, v. split; [done|]. right. exists ((j, Some x) :: l1), l2.
        repeat split; [lia| |done].
        constructor; [|done]. simpl. intros ? [= <-]. done.
    + destruct (IH i0 v0) as (i & v & -> & [[[= -> ->] Hall]|Hright]).
      * exists i0, v0. split; [done|]. left. split; [done|].
        constructor; [|done]. simpl. intros ? [= <-]. done.
      * destruct Hright as (l1 & l2 & -> & Hv & Hl1 & Hl2).
        exists i, v. split; [done|]. right. exists ((j, Some x) :: l1), l2.
        repeat split; [done| |done].
        constructor; [|done]. simpl. intros ? [= <-]. lia.
  - simpl. destruct (IH i0 v0) as (i & v & -> & [[[= -> ->] Hall]|Hright]).
    + exists i0, v0. split; [done|]. left. split; [done|].
      by constructor.
    + destruct Hright as (l1 & l2 & -> & Hv & Hl1 & Hl2).
      exists i, v. split; [done|]. right. exists ((j, None) :: l1), l2.
      repeat split; [done| |done]. by constructor.
Qed.

Lemma argmin_from_None {I} (s : Series I) :
  (argmin_from None s = None ∧ Forall (λ e, e.2 = None) s)
  ∨ (∃ i v l1 l2, argmin_from None s = Some (i, v)
       ∧ s = l1 ++ (i, Some v) :: l2
       ∧ Forall (λ e, ∀ x, e.2 = Some x → v < x) l1
       ∧ Forall (λ e, ∀ x, e.2 = Some x → v ≤ x) l2).
Proof.
  induction s as [|[j [x|]] s IH].
  - left. by split.
  - right. simpl.
    destruct (argmin_from_Some s j x) as (i & v & -> & [[[= -> ->] Hall]|Hright]).
    + exists j, x, [], s. by repeat split.
    + destruct Hright as (l1 & l2 & -> & Hv & Hl1 & Hl2).
      exists i, v, ((j, Some x) :: l1), l2. repeat split; [|done].
      constructor; [|done]. simpl. intros ? [= <-]. done.
  - simpl. destruct IH as [[-> Hall]|(i & v & l1 & l2 & -> & -> & Hl1 & Hl2)].
    + left. split; [done|]. by constructor.
    + right. exists i, v, ((j, None) :: l1), l2. repeat split; [|done].
      by constructor.
Qed.

Lemma series_min_bound {I} (s : Series I) v :
  Forall (λ e, ∀ x, e.2 = Some x → v ≤ x) s →
  match series_min s with Some m => v ≤ m | None => True end.
Proof.
  induction 1 as [|[i [x|]] s Hx _ IH]; simpl in *; [done| |done].
  specialize (Hx x eq_refl). destruct (series_min s); lia.
Qed.

Lemma series_min_elem {I} (s : Series I) i v :
  (i, Some v) ∈ s → Forall (λ e, ∀ x, e.2 = Some x → v ≤ x) s →
  series_min s = Some v.
Proof.
  induction s as [|[j o] s IH]; intros Hin Hall; [by apply elem_of_nil in Hin|].
  apply Forall_cons in Hall as [Hj Hall]. simpl in Hj.
  apply elem_of_cons in Hin as [[= <- <-]|Hin].
  - simpl. pose proof (series_min_bound s v Hall).
    destruct (series_min s); [f_equal; lia|done].
  - simpl. rewrite (IH Hin Hall). destruct o as [x|]; [|done].
    specialize (Hj x eq_refl). f_equal. lia.
Qed.

Lemma series_min_None {I} (s : Series I) :
  Forall (λ e, e.2 = None) s → series_min s = None.
Proof.
  induction 1 as [|[j o] r Ho _ IH]; [done|]. simpl in *. by rewrite Ho.
Qed.

Lemma idxmin_cases {I} (s : Series I) :
  match idxmin s with
  | Raise e => s = [] ∧ e = ValueError
  | Ok None => s ≠ [] ∧ Forall (λ e, e.2 = None) s
  | Ok (Some i) =>
      ∃ v l1 l2, s = l1 ++ (i, Some v) :: l2
                 ∧ Forall (λ e, ∀ x, e.2 = Some x → v < x) l1
                 ∧ Forall (λ e, ∀ x, e.2 = Some x → v ≤ x) l2
  end.
Proof.
  destruct s as [|e s]; [done|]. unfold idxmin.
  destruct (argmin_from_None (e :: s))
    as [[-> Hall]|(i & v & l1 & l2 & -> & Hs & Hl1 & Hl2)]; simpl; [done|].
  by exists v, l1, l2.
Qed.

(** X9: [idxmin]: ValueError on the empty series, the missing label when no
    value is present, and otherwise the label of the first entry that holds
    the smallest present value, which is the value of [min]. *)
Theorem idxmin_spec {I} (s : Series I) :
  match idxmin s with
  | Raise e => s = [] ∧ e = ValueError
  | Ok None => s ≠ [] ∧ Forall (λ e, e.2 = None) s ∧ series_min s = None
  | Ok (Some i) =>
      ∃ v l1 l2, s = l1 ++ (i, Some v) :: l2
                 ∧ Forall (λ e, ∀ x, e.2 = Some x → v < x) l1
                 ∧ Forall (λ e, ∀ x, e.2 = Some x → v ≤ x) l2
                 ∧ series_min s = Some v
  end.
Proof.
  pose proof (idxmin_cases s) as Hcases.
  destruct (idxmin s) as [[i|]|e]; [|destruct Hcases as [Hne Hall]|done].
  - destruct Hcases as (v & l1 & l2 & Hs & Hl1 & Hl2).
    exists v, l1, l2. do 3 (split; [done|]). rewrite Hs.
    apply (series_min_elem _ i).
    + apply elem_of_app. right. left.
    + apply Forall_app. split.
      * eapply Forall_impl; [exact Hl1|]. intros ? H x Hx. specialize (H x Hx). lia.
      * constructor; [|done]. simpl. intros ? [= <-]. done.
  - split; [done|]. split; [done|]. by apply series_min_None.
Qed.

Lemma argmax_from_Some {I} (s : Series I) i0 v0 :
  ∃ i v, argmax_from (Some (i0, v0)) s = Some (i, v)
    ∧ (((i, v) = (i0, v0) ∧ Forall (λ e, ∀ x, e.2 = Some x → x ≤ v0) s)
       ∨ (∃ l1 l2, s = l1 ++ (i, Some v) :: l2 ∧ v0 < v
                   ∧ Forall (λ e, ∀ x, e.2 = Some x → x < v) l1
                   ∧ Forall (λ e, ∀ x, e.2 = Some x → x ≤ v) l2)).
Proof.
  revert i0 v0. induction s as [|[j [x|]] s IH]; intros i0 v0.
  - exists i0, v0. split; [done|]. left. by split.
  - simpl. destruct (Z.ltb_spec v0 x) as [Hlt|Hge].
    + destruct (IH j x) as (i & v & -> & [[[= -> ->] Hall]|Hright]).
      * exists j, x. split; [done|]. right. exists [], s. by repeat split.
      * destruct Hright as (l1 & l2 & -> & Hv & Hl1 & Hl2).
        exists i, v. split; [done|]. right. exists ((j, Some x) :: l1), l2.
        repeat split; [lia| |done].
        constructor; [|done]. simpl. intros ? [= <-]. done.
    + destruct (IH i0 v0) as (i & v & -> & [[[= -> ->] Hall]|Hright]).
      * exists i0, v0. split; [done|]. left. split; [done|].
        constructor; [|done]. simpl. intros ? [= <-]. done.
      * destruct Hright as (l1 & l2 & -> & Hv & Hl1 & Hl2).
        exists i, v. split; [done|]. right. exists ((j, Some x) :: l1), l2.
        repeat split; [done| |done].
        constructor; [|done]. simpl. intros ? [= <-]. lia.
  - simpl. destruct (IH i0 v0) as (i & v & -> & [[[= -> ->] Hall]|Hright]).
    + exists i0, v0. split; [done|]. left. split; [done|].
      by constructor.
    + destruct Hright as (l1 & l2 & -> & Hv & Hl1 & Hl2).
      exists i, v. split; [done|]. right. exists ((j, None) :: l1), l2.
      repeat split; [done| |done]. by constructor.
Qed.

Lemma argmax_from_None {I} (s : Series I) :
  (argmax_from None s = None ∧ Forall (λ e, e.2 = None) s)
  ∨ (∃ i v l1 l2, argmax_from None s = Some (i, v)
       ∧ s = l1 ++ (i, Some v) :: l2
       ∧ Forall (λ e, ∀ x, e.2 = Some x → x < v) l1
       ∧ Forall (λ e, ∀ x, e.2 = Some x → x ≤ v) l2).
Proof.
  induction s as [|[j [x|]] s IH].
  - left. by split.
  - right. simpl.
    destruct (argmax_from_Some s j x) as (i & v & -> & [[[= -> ->] Hall]|Hright]).
    + exists j, x, [], s. by repeat split.
    + destruct Hright as (l1 & l2 & -> & Hv & Hl1 & Hl2).
      exists i, v, ((j, Some x) :: l1), l2. repeat split; [|done].
      constructor; [|done]. simpl. intros ? [= <-]. done.
  - simpl. destruct IH as [[-> Hall]|(i & v & l1 & l2 & -> & -> & Hl1 & Hl2)].
    + left. split; [done|]. by constructor.
    + right. exists i, v, ((j, None) :: l1), l2. repeat split; [|done].
      by constructor.
Qed.

Lemma series_max_bound {I} (s : Series I) v :
  Forall (λ e, ∀ x, e.2 = Some x → x ≤ v) s →
  match series_max s with Some m => m ≤ v | None => True end.
Proof.
  induction 1 as [|[i [x|]] s Hx _ IH]; simpl in *; [done| |done].
  specialize (Hx x eq_refl). destruct (series_max s); lia.
Qed.

Lemma series_max_elem {I} (s : Series I) i v :
  (i, Some v) ∈ s → Forall (λ e, ∀ x, e.2 = Some x → x ≤ v) s →
  series_max s = Some v.
Proof.
  induction s as [|[j o] s IH]; intros Hin Hall; [by apply elem_of_nil in Hin|].
  apply Forall_cons in Hall as [Hj Hall]. simpl in Hj.
  apply elem_of_cons in Hin as [[= <- <-]|Hin].
  - simpl. pose proof (series_max_bound s v Hall).
    destruct (series_max s); [f_equal; lia|done].
  - simpl. rewrite (IH Hin Hall). destruct o as [x|]; [|done].
    specialize (Hj x eq_refl). f_equal. lia.
Qed.

Lemma series_max_None {I} (s : Series I) :
  Forall (λ e, e.2 = None) s → series_max s = None.
Proof.
  induction 1 as [|[j o] r Ho _ IH]; [done|]. simpl in *. by rewrite Ho.
Qed.

(** X10: [idxmax] (best month, best day): ValueError on the empty series, the
    missing label when no value is present, and otherwise the label of the
    first entry that holds the largest present value, which is the value
    that [max] reports next to it. *)
Theorem idxmax_spec {I} (s : Series I) :
  match idxmax s with
  | Raise e => s = [] ∧ e = ValueError
  | Ok None => s ≠ [] ∧ Forall (λ e, e.2 = None) s ∧ series_max s = None
  | Ok (Some i) =>
      ∃ v l1 l2, s = l1 ++ (i, Some v) :: l2
                 ∧ Forall (λ e, ∀ x, e.2 = Some x → x < v) l1
                 ∧ Forall (λ e, ∀ x, e.2 = Some x → x ≤ v) l2
                 ∧ series_max s = Some v
  end.
Proof.
  destruct s as [|e s]; [done|]. unfold idxmax.
  destruct (argmax_from_None (e :: s))
    as [[-> Hall]|(i & v & l1 & l2 & -> & Hs & Hl1 & Hl2)]; simpl.
  - split; [done|]. split; [done|]. exact (series_max_None (e :: s) Hall).
  - exists v, l1, l2. do 3 (split; [done|]).
    change (series_max (e :: s) = Some v). rewrite Hs.
    apply (series_max_elem _ i).
    + apply elem_of_app. right. left.
    + apply Forall_app. split.
      * eapply Forall_impl; [exact Hl1|]. intros ? H x Hx. specialize (H x Hx). lia.
      * constructor; [|done]. simpl. intros ? [= <-]. done.
Qed.

(** ** The goal date, without the assumption of non-negative values *)

(** X11: [goal_timestamp] and [goal_date] raise only ValueError, and only when no
    cumulative sum is above 10000; otherwise the date is the one of the
    smallest cumulative sum above 10000 (the first one among equals), which
    is the earliest such date only when the sums do not decrease.  The
    missing label never comes out, so [strftime] is always applied to a
    date. *)
Theorem goal_timestamp_spec (ts : Series Timestamp) :
  match goal_timestamp ts with
  | Raise e => e = ValueError
               ∧ Forall (λ e, ¬ gt_bound 10000 e.2) (cumsum ts)
               ∧ goal_date ts = Raise ValueError
  | Ok None => False
  | Ok (Some d) =>
      goal_date ts = Ok (strftime_B_dth d)
      ∧ ∃ v, (d, Some v) ∈ cumsum ts ∧ 10000 < v
             ∧ ∀ d2 v2, (d2, Some v2) ∈ cumsum ts → 10000 < v2 → v ≤ v2
  end.
Proof.
  unfold goal_date. unfold goal_timestamp.
  pose proof (idxmin_cases (where_gt 10000 (cumsum ts))) as Hspec.
  destruct (idxmin (where_gt 10000 (cumsum ts))) as [[d|]|e].
  - split; [done|]. destruct Hspec as (v & l1 & l2 & Hs & Hl1 & Hl2).
    assert (Hin : (d, Some v) ∈ where_gt 10000 (cumsum ts)).
    { rewrite Hs. apply elem_of_app. right. left. }
    unfold where_gt in Hin. apply list_elem_of_filter in Hin as [Hv Hin].
    exists v. split; [done|]. split; [done|].
    intros d2 v2 Hin2 Hv2.
    assert (Hin3 : (d2, Some v2) ∈ where_gt 10000 (cumsum ts)).
    { unfold where_gt. by apply list_elem_of_filter. }
    rewrite Hs in Hin3. apply elem_of_app in Hin3 as [Hin3|Hin3].
    + rewrite Forall_forall in Hl1. specialize (Hl1 _ Hin3 v2 eq_refl). lia.
    + apply elem_of_cons in Hin3 as [[= -> ->]|Hin3]; [lia|].
      rewrite Forall_forall in Hl2. by apply (Hl2 _ Hin3 v2).
  - destruct Hspec as (Hne & Hall).
    destruct (where_gt 10000 (cumsum ts)) as [|[d o] r] eqn:Hr; [done|].
    assert (Hin : (d, o) ∈ where_gt 10000 (cumsum ts)) by (rewrite Hr; left).
    unfold where_gt in Hin. apply list_elem_of_filter in Hin as [Hv _].
    apply Forall_cons in Hall as [Ho _]. simpl in Ho, Hv. by subst o.
  - destruct Hspec as [Hs ->]. split; [done|]. split; [|done].
    apply Forall_forall. intros x Hx Hgt.
    assert (Hin : x ∈ where_gt 10000 (cumsum ts)).
    { unfold where_gt. by apply list_elem_of_filter. }
    rewrite Hs in Hin. by apply elem_of_nil in Hin.
Qed.

Example goal_date_after_correction :
  goal_date [(mkTimestamp 2021 8 5, Some 10090); (mkTimestamp 2021 8 6, Some (-60));
             (mkTimestamp 2021 8 7, Some 30)]
  = Ok "August 6th"%string.
Proof. vm_compute. reflexivity. Qed.

(** ** The table that main works on *)

Lemma load_data_Ok_inv raw df :
  load_data raw = Ok df →
  (31 ≤ length (df_index raw))%nat
  ∧ df = rename (dict (zip (named_columns raw) MONTHS))
           {| df_index := seqZ 1 31;
              df_columns := named_columns raw;
              df_data := take 31 (df_data (drop_columns (unnamed_columns raw) raw)) |}.
Proof.
  intros Hload. destruct (decide (31 ≤ length (df_index raw))%nat) as [Hrows|Hrows].
  - split; [done|]. rewrite load_data_Ok in Hload by done. by injection Hload.
  - rewrite load_data_Raise in Hload by lia. done.
Qed.

Lemma select_keep_length (labels cols : list string) (row : list (option Z)) :
  length row = length cols →
  length (select ((λ c, bool_decide (c ∉ labels)) <$> cols) row)
  = length (filter (λ c, c ∉ labels) cols).
Proof.
  intros Hlen. rewrite <-select_keep. by apply select_length.
Qed.

Lemma load_data_Ok_wf raw df :
  wf_DataFrame raw → load_data raw = Ok df → wf_DataFrame df.
Proof.
  intros [Hlen Hrows] [Hge ->]%load_data_Ok_inv.
  unfold wf_DataFrame. cbn [rename df_index df_columns df_data drop_columns].
  split.
  - rewrite length_take, length_fmap, length_seqZ. lia.
  - rewrite length_fmap, <-drop_columns_unnamed. cbn [drop_columns df_columns].
    apply Forall_take, Forall_fmap, Forall_forall. intros row Hrow.
    rewrite Forall_forall in Hrows. simpl. by apply select_length, Hrows.
Qed.

(** X12: [load_data] returns a rectangular table: 31 rows under the labels 1..31,
    and in every row one cell for each column that is left. *)
Theorem load_data_wf raw df :
  wf_DataFrame raw →
  load_data raw = Ok df →
  wf_DataFrame df
  ∧ length (df_data df) = 31%nat
  ∧ length (df_columns df) = length (named_columns raw).
Proof.
  intros Hwf Hload. pose proof (load_data_Ok_wf raw df Hwf Hload) as Hwf2.
  split; [done|]. destruct Hwf2 as [Hlen2 _].
  apply load_data_Ok_inv in Hload as [_ ->].
  cbn [rename df_index df_columns df_data] in *.
  rewrite length_seqZ in Hlen2. split; [lia|]. by rewrite length_fmap.
Qed.

Lemma load_data_wf_witness :
  wf_DataFrame (csv_table 33)
  ∧ load_data (csv_table 33)
    = Ok {| df_index := seqZ 1 31;
            df_columns := ["January"; "February"; "March"]%string;
            df_data := replicate 31 [Some 30; None; Some 60] |}
  ∧ wf_DataFrame {| df_index := seqZ 1 31;
                    df_columns := ["January"; "February"; "March"]%string;
                    df_data := replicate 31 [Some 30; None; Some 60] |}
  ∧ length (replicate 31 [Some 30; None; Some 60]) = 31%nat
  ∧ length ["January"; "February"; "March"]%string
    = length (named_columns (csv_table 33)).
Proof.
  assert (H1 : wf_DataFrame (csv_table 33)).
  { split; [reflexivity|]. repeat constructor. }
  assert (H2 : load_data (csv_table 33)
    = Ok {| df_index := seqZ 1 31;
            df_columns := ["January"; "February"; "March"]%string;
            df_data := replicate 31 [Some 30; None; Some 60] |}).
  { vm_compute. reflexivity. }
  split; [exact H1|]. split; [exact H2|].
  exact (load_data_wf (csv_table 33) _ H1 H2).
Defined.

Lemma main_ts_Ok_inv raw ts :
  main_ts raw = Ok ts →
  ∃ df, load_data raw = Ok df
        ∧ main_df raw = Ok (dropna_all_columns df)
        ∧ as_time_series (dropna_all_columns df) = Ok ts.
Proof.
  unfold main_ts, main_df. destruct (load_data raw) as [df|e]; [|done].
  intros Hts. by exists df.
Qed.

Lemma load_data_columns_months raw df :
  NoDup (df_columns raw) → (length (named_columns raw) ≤ 12)%nat →
  load_data raw = Ok df →
  df_index df = seqZ 1 31 ∧ df_columns df `sublist_of` MONTHS.
Proof.
  intros Hnd Hle [_ ->]%load_data_Ok_inv. cbn [rename df_index df_columns].
  split; [done|].
  rewrite rename_zip by (eapply sublist_NoDup; [exact Hnd|apply sublist_filter]).
  rewrite drop_ge by (simpl; lia). rewrite app_nil_r. apply sublist_take.
Qed.

(** X13: The series that main plots: for a file with distinct column labels of
    which at most 12 are named, whatever [main_ts] returns is in strictly
    ascending date order, without a repeated date, on dates of 2021; and
    dropping the empty columns first (line 62) makes no difference to it. *)
Theorem main_ts_sorted raw ts :
  wf_DataFrame raw →
  NoDup (df_columns raw) →
  (length (named_columns raw) ≤ 12)%nat →
  main_ts raw = Ok ts →
  StronglySorted Timestamp_lt (ts.*1)
  ∧ NoDup (ts.*1)
  ∧ Forall (λ t, ts_year t = 2021 ∧ valid_date 2021 (ts_month t) (ts_day t)) (ts.*1)
  ∧ (load_data raw ≫= as_time_series) = Ok ts.
Proof.
  intros Hwf Hnd Hle (df & Hload & _ & Hts)%main_ts_Ok_inv.
  destruct (load_data_columns_months raw df Hnd Hle Hload) as [Hidx Hcols].
  assert (Hcols2 : df_columns (dropna_all_columns df) `sublist_of` MONTHS).
  { etrans; [apply select_sublist|exact Hcols]. }
  assert (Hmonths : NoDup MONTHS).
  { apply (bool_decide_unpack _). vm_compute. exact I. }
  destruct (as_time_series_dates (dropna_all_columns df) ts) as (H1 & H2 & H3);
    try done.
  - cbn [dropna_all_columns df_index]. rewrite Hidx. by apply Forall_forall.
  - cbn [dropna_all_columns df_index]. rewrite Hidx. apply NoDup_seqZ.
  - apply Forall_forall. intros m Hm. by eapply elem_of_sublist.
  - by eapply sublist_NoDup.
  - do 3 (split; [done|]). rewrite Hload. cbn [mbind result_bind].
    unfold as_time_series in *.
    by rewrite <-(stack_dropna_all_columns df) by (by eapply load_data_Ok_wf).
Qed.

Lemma main_ts_sorted_witness :
  wf_DataFrame (csv_table 33)
  ∧ NoDup (df_columns (csv_table 33))
  ∧ (length (named_columns (csv_table 33)) ≤ 12)%nat
  ∧ ∃ ts, main_ts (csv_table 33) = Ok ts
          ∧ StronglySorted Timestamp_lt (ts.*1)
          ∧ NoDup (ts.*1)
          ∧ Forall (λ t, ts_year t = 2021
                         ∧ valid_date 2021 (ts_month t) (ts_day t)) (ts.*1)
          ∧ (load_data (csv_table 33) ≫= as_time_series) = Ok ts.
Proof.
  assert (H1 : wf_DataFrame (csv_table 33)).
  { split; [reflexivity|]. repeat constructor. }
  assert (H2 : NoDup (df_columns (csv_table 33))).
  { apply (bool_decide_unpack _). vm_compute. exact I. }
  assert (H3 : (length (named_columns (csv_table 33)) ≤ 12)%nat).
  { vm_compute. lia. }
  destruct (main_ts (csv_table 33)) as [ts|e] eqn:H4; [|by vm_compute in H4].
  split; [exact H1|]. split; [exact H2|]. split; [exact H3|].
  exists ts. split; [reflexivity|].
  exact (main_ts_sorted (csv_table 33) ts H1 H2 H3 H4).
Defined.

(** X14: The number in the header (line 74) is the sum of the series that the
    charts plot (line 63): whenever [main_ts] returns a series, [main_total]
    returns the sum of its values. *)
Theorem main_total_series_sum raw ts :
  wf_DataFrame raw →
  main_ts raw = Ok ts →
  main_total raw = Ok (series_sum ts).
Proof.
  intros Hwf (df & Hload & Hdf & Hts)%main_ts_Ok_inv.
  unfold main_total. rewrite Hdf. cbn [fmap result_fmap]. f_equal.
  unfold series_sum. rewrite (as_time_series_values _ _ Hts).
  symmetry. apply stack_sum, dropna_all_columns_wf.
  by eapply load_data_Ok_wf.
Qed.

Lemma main_total_series_sum_witness :
  wf_DataFrame (csv_table 33)
  ∧ ∃ ts, main_ts (csv_table 33) = Ok ts
          ∧ main_total (csv_table 33) = Ok (series_sum ts).
Proof.
  assert (H1 : wf_DataFrame (csv_table 33)).
  { split; [reflexivity|]. repeat constructor. }
  destruct (main_ts (csv_table 33)) as [ts|e] eqn:H2; [|by vm_compute in H2].
  split; [exact H1|]. exists ts. split; [reflexivity|].
  exact (main_total_series_sum (csv_table 33) ts H1 H2).
Defined.

Example main_total_csv_table : main_total (csv_table 33) = Ok 2790.
Proof. vm_compute. reflexivity. Qed.

(** ** The expected progress and the split at the goal date *)

Lemma cumsum_from_expected acc (ts : Series Timestamp) k t v :
  ts !! k = Some (t, v) →
  cumsum_from acc (expected_series ts) !! k
  = Some (t, Some (acc + 30 * (Z.of_nat k + 1))).
Proof.
  revert acc k. induction ts as [|[t0 v0] ts IH]; intros acc k Hk; [done|].
  destruct k as [|k]; simpl in *.
  - by injection Hk as -> ->.
  - rewrite (IH (acc + 30) k Hk). do 3 f_equal. lia.
Qed.

(** X15: The line "Expected" of the progress chart (lines 122-124) stands at 30
    times the number of entries so far: it advances with every entry of the
    series, whatever its date and value, and has one point per entry. *)
Theorem progress_expected_lookup (ts : Series Timestamp) k t v :
  ts !! k = Some (t, v) →
  progress_expected ts !! k = Some (t, Some (30 * (Z.of_nat k + 1)))
  ∧ length (progress_expected ts) = length ts.
Proof.
  intros Hk. split.
  - unfold progress_expected, cumsum. by rewrite (cumsum_from_expected 0 ts k t v).
  - unfold progress_expected, cumsum.
    rewrite <-(length_fmap fst (cumsum_from _ _)), cumsum_from_labels.
    unfold expected_series. by rewrite !length_fmap.
Qed.

Lemma progress_expected_lookup_witness :
  august_series !! 3%nat = Some (mkTimestamp 2021 8 8, Some 30)
  ∧ progress_expected august_series !! 3%nat
    = Some (mkTimestamp 2021 8 8, Some (30 * (Z.of_nat 3 + 1)))
  ∧ length (progress_expected august_series) = length august_series.
Proof.
  assert (H : august_series !! 3%nat = Some (mkTimestamp 2021 8 8, Some 30)).
  { reflexivity. }
  split; [exact H|].
  exact (progress_expected_lookup august_series 3 _ _ H).
Defined.

Lemma after_goal_all_true (ts : Series Timestamp) :
  Forall (λ e, Timestamp_lt (mkTimestamp 2021 8 6) e.1) ts →
  after_goal ts = replicate (length ts) true.
Proof.
  induction 1 as [|e ts He _ IH]; [done|].
  unfold after_goal in *. csimpl. by rewrite IH, bool_decide_eq_true_2.
Qed.

(** X16: On a series in date order the column "after_goal" (lines 150-152) is
    False on a first stretch and True from then on: the entries up to
    6 August 2021 come first, that day included, the later ones after. *)
Theorem after_goal_split (ts : Series Timestamp) :
  StronglySorted Timestamp_le (ts.*1) →
  ∃ before after,
    ts = before ++ after
    ∧ after_goal ts = replicate (length before) false ++ replicate (length after) true
    ∧ Forall (λ e, Timestamp_le e.1 (mkTimestamp 2021 8 6)) before
    ∧ Forall (λ e, Timestamp_lt (mkTimestamp 2021 8 6) e.1) after.
Proof.
  induction ts as [|[t v] ts IH]; intros Hsorted.
  - exists [], []. by repeat split.
  - rewrite fmap_cons in Hsorted.
    apply StronglySorted_inv in Hsorted as [Hsorted Hall].
    destruct (decide (Timestamp_lt (mkTimestamp 2021 8 6) t)) as [Hlt|Hle].
    + assert (Hafter : Forall (λ e, Timestamp_lt (mkTimestamp 2021 8 6) e.1)
                         ((t, v) :: ts)).
      { constructor; [done|]. apply Forall_forall. intros [t2 v2] Hin.
        rewrite Forall_forall in Hall. cbn [fst].
        destruct (Hall t2) as [Ht2| <-]; [|by etrans|done].
        apply list_elem_of_fmap. by exists (t2, v2). }
      exists [], ((t, v) :: ts). split; [done|].
      split; [by apply after_goal_all_true|]. split; [constructor|done].
    + destruct (IH Hsorted) as (before & after & -> & Hmask & Hb & Ha).
      exists ((t, v) :: before), after. split; [done|]. split; [|split; [|done]].
      * unfold after_goal in *. rewrite fmap_cons, Hmask. cbn [fst].
        by rewrite bool_decide_eq_false_2.
      * constructor; [|done]. simpl.
        destruct (total Timestamp_le t (mkTimestamp 2021 8 6)) as [?|[?| <-]];
          [done|done|by right].
Qed.

Lemma after_goal_split_witness :
  StronglySorted Timestamp_le (august_series.*1)
  ∧ ∃ before after,
      august_series = before ++ after
      ∧ after_goal august_series
        = replicate (length before) false ++ replicate (length after) true
      ∧ Forall (λ e, Timestamp_le e.1 (mkTimestamp 2021 8 6)) before
      ∧ Forall (λ e, Timestamp_lt (mkTimestamp 2021 8 6) e.1) after.
Proof.
  assert (H : StronglySorted Timestamp_le (august_series.*1)).
  { apply (bool_decide_unpack _). vm_compute. exact I. }
  split; [exact H|]. exact (after_goal_split august_series H).
Defined.

Example after_goal_august : after_goal august_series = [false; false; true; true].
Proof. vm_compute. reflexivity. Qed.

(** ** The totals per month and the series *)

Lemma match_B_lower m : match_B (lower m) = match_B m.
Proof. unfold match_B. by rewrite lower_idemp. Qed.

Lemma match_B_same_lower m n : lower m = lower n → match_B m = match_B n.
Proof. unfold match_B. by intros ->. Qed.

Section transfer.
Context {A B V : Type} (R : A → B → Prop) (P : A → Prop) (Q : B → Prop).
Context `{!∀ x, Decision (P x), !∀ y, Decision (Q y)}.

Lemma filter_zip_transfer (l : list A) (k : list B) (vs : list V) :
  Forall2 R l k → (∀ x y, R x y → (P x ↔ Q y)) →
  (filter (λ e, Q e.1) (zip k vs)).*2 = (filter (λ e, P e.1) (zip l vs)).*2.
Proof.
  intros Hlk HPQ. revert vs.
  induction Hlk as [|x y l k Hxy _ IH]; intros [|v vs]; try done.
  csimpl. rewrite !filter_cons. cbn [fst].
  destruct (decide (Q y)) as [HQ|HQ], (decide (P x)) as [HP|HP].
  - csimpl. by rewrite IH.
  - destruct HP. by apply (HPQ x y).
  - destruct HQ. by apply (HPQ x y).
  - apply IH.
Qed.
End transfer.

Lemma row_entries_no_column cols i (row : list (option Z)) (m : string) :
  m ∉ cols → filter (λ e, e.1.2 = m) (row_entries cols i row) = [].
Proof.
  intros Hm. apply filter_none. apply Forall_forall. intros [[d c] v] Hin.
  simpl. intros ->. apply Hm.
  assert (Hl : (d, m) ∈ (row_entries cols i row).*1).
  { apply list_elem_of_fmap. by exists ((d, m), v). }
  eapply elem_of_sublist in Hl; [|apply row_entries_labels].
  by apply list_elem_of_fmap in Hl as (c & [= _ ->] & Hc).
Qed.

Lemma row_entries_column cols i (row : list (option Z)) j (m : string) :
  NoDup cols → length row = length cols → cols !! j = Some m →
  sum_present ((filter (λ e, e.1.2 = m) (row_entries cols i row)).*2)
  = default 0 (mjoin (row !! j)).
Proof.
  intros Hnd. revert row j.
  induction Hnd as [|c cols Hc Hnd IH]; intros [|v row] j Hlen Hj; try done.
  change (row_entries (c :: cols) i (v :: row))
    with (((i, c), v) :: row_entries cols i row).
  rewrite filter_cons. cbn [fst snd]. destruct j as [|j].
  - injection Hj as ->. rewrite decide_True by done.
    rewrite row_entries_no_column by done. simpl. lia.
  - simpl in Hj. rewrite decide_False.
    + change ((v :: row) !! S j) with (row !! j).
      apply IH; [simpl in Hlen; lia|done].
    + intros ->. apply Hc. by eapply list_elem_of_lookup_2.
Qed.

Lemma cells_column df j m :
  wf_DataFrame df → NoDup (df_columns df) → df_columns df !! j = Some m →
  sum_present ((filter (λ e, e.1.2 = m) (cells df)).*2)
  = sum_present (column_cells j df).
Proof.
  intros [Hlen Hrows] Hnd Hj. unfold cells, column_cells.
  revert Hlen Hrows. generalize (df_index df) as idx.
  induction (df_data df) as [|row data IH]; intros [|i idx] Hlen Hrows; try done.
  apply Forall_cons in Hrows as [Hrow Hrows]. csimpl.
  rewrite filter_app, fmap_app, sum_present_app.
  rewrite (row_entries_column _ _ _ j) by done.
  rewrite IH by (done || (simpl in Hlen; lia)). done.
Qed.

(** X17: A bar of the chart of totals per month (line 78) is the sum of the
    entries of the series (line 63) that fall in that month: for the column
    at position [j], labelled with the name of month [k]. *)
Theorem df_sum_month_total df ts j m k :
  wf_DataFrame df →
  NoDup (lower <$> df_columns df) →
  as_time_series df = Ok ts →
  df_columns df !! j = Some m →
  match_B m = Some k →
  df_sum df !! j
  = Some (m, Some (sum_present ((filter (λ e, ts_month e.1 = k) ts).*2))).
Proof.
  intros Hwf Hcols Hts Hj Hk.
  assert (Hnd : NoDup (df_columns df)) by (by eapply NoDup_fmap_1).
  unfold df_sum. rewrite list_lookup_imap, Hj. cbn [fmap option_fmap option_map].
  do 3 f_equal. rewrite <-(cells_column df j m) by done.
  apply as_time_series_Ok in Hts as (index & Hm & ->).
  apply mapM_Ok_Forall2 in Hm as Hindex.
  rewrite sort_index_Permutation.
  assert (HPQ : ∀ (p : Z * string) (t : Timestamp),
            to_datetime p 2021 = Ok t → (lower p.2 = lower m ↔ ts_month t = k)).
  { intros [d c] t (k2 & Hk2 & _ & ->)%to_datetime_Ok. cbn [fst snd ts_month].
    split.
    - intros Hl. apply match_B_same_lower in Hl. congruence.
    - intros ->. by eapply match_B_inj. }
  transitivity (sum_present
    (filter (λ e, lower e.1.2 = lower m) (zip (stack df).*1 (stack df).*2)).*2).
  - rewrite zip_fst_snd. unfold stack.
    rewrite list_filter_filter.
    rewrite <-(sum_present_stack (filter (λ e, e.1.2 = m) (cells df))).
    rewrite list_filter_filter. f_equal. f_equal.
    apply filter_ext_in. intros [[d c] v] Hin. cbn [fst snd].
    assert (Hc : c ∈ df_columns df).
    { assert (Hl : (d, c) ∈ (cells df).*1).
      { apply list_elem_of_fmap. by exists ((d, c), v). }
      eapply elem_of_sublist in Hl; [|apply cells_labels_sublist].
      by apply elem_of_grid_labels in Hl as [_ ?]. }
    split.
    + by intros [Hv ->].
    + intros [Hl Hv]. split; [done|].
      apply (NoDup_fmap_elem_inj lower (df_columns df)); try done.
      by eapply list_elem_of_lookup_2.
  - f_equal. symmetry.
    exact (filter_zip_transfer
             (λ p t, to_datetime p 2021 = Ok t) (λ p, lower p.2 = lower m)
             (λ t, ts_month t = k) _ _ _ Hindex HPQ).
Qed.

Lemma df_sum_month_total_witness :
  wf_DataFrame march_grid
  ∧ NoDup (lower <$> df_columns march_grid)
  ∧ as_time_series march_grid = Ok march_series
  ∧ df_columns march_grid !! 1%nat = Some "February"%string
  ∧ match_B "February" = Some 2
  ∧ df_sum march_grid !! 1%nat
    = Some ("February"%string,
            Some (sum_present ((filter (λ e, ts_month e.1 = 2) march_series).*2))).
Proof.
  assert (H1 : wf_DataFrame march_grid).
  { split; [reflexivity|]. repeat constructor. }
  assert (H2 : NoDup (lower <$> df_columns march_grid)).
  { apply (bool_decide_unpack _). vm_compute. exact I. }
  assert (H3 : as_time_series march_grid = Ok march_series).
  { vm_compute. reflexivity. }
  assert (H4 : df_columns march_grid !! 1%nat = Some "February"%string).
  { reflexivity. }
  assert (H5 : match_B "February" = Some 2).
  { vm_compute. reflexivity. }
  split; [exact H1|]. split; [exact H2|]. split; [exact H3|].
  split; [exact H4|]. split; [exact H5|].
  exact (df_sum_month_total march_grid march_series 1 _ 2 H1 H2 H3 H4 H5).
Defined.

(** ** The totals per day of the month and the series *)

Lemma row_entries_row cols i (row : list (option Z)) (d : Z) :
  filter (λ e, e.1.1 = d) (row_entries cols i row)
  = if decide (i = d) then row_entries cols i row else [].
Proof.
  unfold row_entries. revert row.
  induction cols as [|c cols IH]; intros [|v row]; try by case_decide.
  csimpl. rewrite filter_cons, IH. cbn [fst]. by case_decide.
Qed.

Lemma cells_row idx cols (data : list (list (option Z))) r d row :
  NoDup idx → Forall (λ row, length row = length cols) data →
  idx !! r = Some d → data !! r = Some row →
  sum_present ((filter (λ e, e.1.1 = d)
                  (concat (zip_with (row_entries cols) idx data))).*2)
  = sum_present row.
Proof.
  intros Hnd. revert data r.
  induction Hnd as [|i idx Hi Hnd IH]; intros [|row0 data] r Hrows Hr Hrow;
    try done.
  apply Forall_cons in Hrows as [Hrow0 Hrows]. csimpl.
  rewrite filter_app, fmap_app, sum_present_app, row_entries_row.
  destruct r as [|r]; simpl in Hr, Hrow.
  - injection Hr as ->. injection Hrow as ->. rewrite decide_True by done.
    rewrite row_entries_values by lia.
    assert (Hrest : filter (λ e : Z * string * option Z, e.1.1 = d)
                      (concat (zip_with (row_entries cols) idx data)) = []).
    { apply filter_none, Forall_forall. intros [[d2 c] v] Hin. simpl. intros ->.
      apply Hi.
      assert (Hl : (d, c) ∈ (cells (mkDataFrame idx cols data)).*1).
      { apply list_elem_of_fmap. by exists ((d, c), v). }
      eapply elem_of_sublist in Hl; [|apply cells_labels_sublist].
      by apply elem_of_grid_labels in Hl as [? _]. }
    rewrite Hrest. simpl. lia.
  - rewrite decide_False.
    + rewrite (IH data r) by done. simpl. lia.
    + intros ->. apply Hi. by eapply list_elem_of_lookup_2.
Qed.

(** X18: A bar of the chart of totals per day of the month (line 98) is the sum
    of the entries of the series that fall on that day of a month: for the
    row at position [r], labelled [d]. *)
Theorem df_sum_axis1_day_total df ts r d :
  wf_DataFrame df →
  NoDup (df_index df) →
  as_time_series df = Ok ts →
  df_index df !! r = Some d →
  df_sum_axis1 df !! r
  = Some (d, Some (sum_present ((filter (λ e, ts_day e.1 = d) ts).*2))).
Proof.
  intros [Hlen Hrows] Hnd Hts Hr.
  destruct (df_data df !! r) as [row|] eqn:Hrow.
  2: { apply lookup_ge_None in Hrow. apply lookup_lt_Some in Hr. lia. }
  unfold df_sum_axis1. rewrite lookup_zip_with, Hr, Hrow.
  cbn [mbind option_bind fmap option_fmap option_map]. do 3 f_equal.
  rewrite <-(cells_row (df_index df) (df_columns df) (df_data df) r d row)
    by done.
  fold (cells df).
  apply as_time_series_Ok in Hts as (index & Hm & ->).
  apply mapM_Ok_Forall2 in Hm as Hindex.
  rewrite sort_index_Permutation.
  assert (HPQ : ∀ (p : Z * string) (t : Timestamp),
            to_datetime p 2021 = Ok t → (p.1 = d ↔ ts_day t = d)).
  { by intros [d2 c] t (k2 & Hk2 & _ & ->)%to_datetime_Ok. }
  transitivity (sum_present
    (filter (λ e, e.1.1 = d) (zip (stack df).*1 (stack df).*2)).*2).
  - rewrite zip_fst_snd. unfold stack.
    rewrite list_filter_filter.
    rewrite <-(sum_present_stack (filter (λ e, e.1.1 = d) (cells df))).
    rewrite list_filter_filter. f_equal. f_equal.
    apply list_filter_iff. intros e. tauto.
  - f_equal. symmetry.
    exact (filter_zip_transfer
             (λ p t, to_datetime p 2021 = Ok t) (λ p, p.1 = d)
             (λ t, ts_day t = d) _ _ _ Hindex HPQ).
Qed.

Lemma df_sum_axis1_day_total_witness :
  wf_DataFrame march_grid
  ∧ NoDup (df_index march_grid)
  ∧ as_time_series march_grid = Ok march_series
  ∧ df_index march_grid !! 1%nat = Some 2
  ∧ df_sum_axis1 march_grid !! 1%nat
    = Some (2, Some (sum_present ((filter (λ e, ts_day e.1 = 2) march_series).*2))).
Proof.
  assert (H1 : wf_DataFrame march_grid).
  { split; [reflexivity|]. repeat constructor. }
  assert (H2 : NoDup (df_index march_grid)).
  { apply (bool_decide_unpack _). vm_compute. exact I. }
  assert (H3 : as_time_series march_grid = Ok march_series).
  { vm_compute. reflexivity. }
  assert (H4 : df_index march_grid !! 1%nat = Some 2).
  { reflexivity. }
  split; [exact H1|]. split; [exact H2|]. split; [exact H3|]. split; [exact H4|].
  exact (df_sum_axis1_day_total march_grid march_series 1 2 H1 H2 H3 H4).
Defined.

(** ** The order of the series does not depend on the sorting algorithm *)

Lemma sort_index_unique_witness :
  NoDup ((mkTimestamp 2021 3 1, Some 4) :: take 2 march_series).*1
  ∧ march_series ≡ₚ (mkTimestamp 2021 3 1, Some 4) :: take 2 march_series
  ∧ StronglySorted Timestamp_le (march_series.*1)
  ∧ march_series = sort_index ((mkTimestamp 2021 3 1, Some 4) :: take 2 march_series).
Proof.
  assert (H1 : NoDup ((mkTimestamp 2021 3 1, Some 4) :: take 2 march_series).*1).
  { apply (bool_decide_unpack _). vm_compute. exact I. }
  assert (H2 : march_series ≡ₚ (mkTimestamp 2021 3 1, Some 4) :: take 2 march_series).
  { symmetry. apply (Permutation_cons_append (take 2 march_series)). }
  assert (H3 : StronglySorted Timestamp_le (march_series.*1)).
  { apply (bool_decide_unpack _). vm_compute. exact I. }
  split; [exact H1|]. split; [exact H2|]. split; [exact H3|].
  exact (sort_index_unique _ march_series H1 H2 H3).
Defined.
